(** * Payment status reconciliation (app.py): a shallow embedding

    The Flask application keeps an in-memory [payment_store], receives signed
    webhook notifications, polls the provider's paginated transaction list
    and starts STK pushes.  The handlers are embedded as functions in a
    state-and-exception monad over the store and the log of outbound calls.

    Conventions of the embedding:
    - a Python [str] is a Rocq [string], one character per code point, so the
      embedding covers code points up to U+00FF; [lower], [strip] and
      [lstrip] follow Python's tables on that range;
    - a parsed JSON document is a [value]; a JSON object is an association
      list read with the first binding of a key;
    - library calls whose algorithm is not part of the application (HMAC,
      the JSON parser, [str()] of a non-string, [float()] of a string) and
      the remote provider are fields of a [world]; every theorem holds for
      every world. *)

From Stdlib Require Import ZArith String Ascii List Bool Lia.
From Stdlib Require Import Floats.SpecFloat.
From stdpp Require Import gmap strings.

Set Warnings "-register-all,-clear-no-such-hyp,-level-tolerance".

Open Scope string_scope.
Open Scope Z_scope.

(** ** Python strings *)

Module PyStr.

(** [str.isspace] on one character, for code points below 256. *)
Definition isspace (a : ascii) : bool :=
  let n := N_of_ascii a in
  ((9 <=? n) && (n <=? 13) || (28 <=? n) && (n <=? 32)
   || (n =? 133) || (n =? 160))%N.

(** [str.lower] on one character, for code points below 256. *)
Definition lower_char (a : ascii) : ascii :=
  let n := N_of_ascii a in
  if ((65 <=? n) && (n <=? 90)
      || (192 <=? n) && (n <=? 222) && negb (n =? 215))%N
  then ascii_of_N (n + 32) else a.

Fixpoint lower (s : string) : string :=
  match s with
  | EmptyString => EmptyString
  | String a s' => String (lower_char a) (lower s')
  end.

(** [s.lstrip(chars)], the set of characters given as a predicate. *)
Fixpoint lstrip_by (p : ascii -> bool) (s : string) : string :=
  match s with
  | EmptyString => EmptyString
  | String a s' => if p a then lstrip_by p s' else s
  end.

Fixpoint rstrip_by (p : ascii -> bool) (s : string) : string :=
  match s with
  | EmptyString => EmptyString
  | String a s' =>
      match rstrip_by p s' with
      | EmptyString => if p a then EmptyString else String a EmptyString
      | r => String a r
      end
  end.

Definition strip (s : string) : string :=
  rstrip_by isspace (lstrip_by isspace s).

(** [s.lstrip(c)] for a one-character argument. *)
Definition lstrip_char (c : ascii) (s : string) : string :=
  lstrip_by (Ascii.eqb c) s.

Definition startswith (p s : string) : bool := String.prefix p s.

Definition is_ascii_char (a : ascii) : bool := (N_of_ascii a <? 128)%N.

Fixpoint isascii (s : string) : bool :=
  match s with
  | EmptyString => true
  | String a s' => is_ascii_char a && isascii s'
  end.

(** A string of white space only. *)
Fixpoint blank (s : string) : bool :=
  match s with
  | EmptyString => true
  | String a s' => isspace a && blank s'
  end.

Fixpoint str_in (s : string) (l : list string) : bool :=
  match l with
  | [] => false
  | x :: l' => String.eqb s x || str_in s l'
  end.

End PyStr.

(** ** Python objects read from JSON, exceptions *)

Inductive value : Type :=
| VNone
| VBool (b : bool)
| VInt (z : Z)
| VFloat (f : spec_float)
| VStr (s : string)
| VList (l : list value)
| VDict (d : list (string * value)).

(** The response of the provider to one outbound call: the call raises
    inside [requests] (time-out, connection error), or an HTTP response
    comes back with a status code and a body that parses as JSON or not. *)
Inductive response : Type :=
| RespTimeout
| RespConnectionError
| RespHttp (status_code : Z) (json : option value).

(** The subclasses of [requests.exceptions.RequestException] that occur.
    [InvalidJSON] is what [resp.json()] raises on a body that is not JSON
    ([requests.exceptions.JSONDecodeError]). *)
Inductive request_exception : Type :=
| Timeout
| ConnectionError
| HTTPError (status_code : Z) (json : option value)
| InvalidJSON.

(** [NonStrKey] marks a hashable object other than a [str] used as a key of
    [payment_store], which the code declares as [dict[str, dict]]: such
    runs are outside the embedding. *)
Inductive exn : Type :=
| AttributeError
| TypeError
| ValueError
| OverflowError
| UnicodeDecodeError
| JSONDecodeError
| RequestException (e : request_exception)
| NonStrKey.

Inductive result (A : Type) : Type :=
| Ok (a : A)
| Raise (e : exn).
Arguments Ok {A} a.
Arguments Raise {A} e.

Module Py.

(** Truth value of an object ([bool(v)]). *)
Definition truthy (v : value) : bool :=
  match v with
  | VNone => false
  | VBool b => b
  | VInt z => negb (z =? 0)
  | VFloat (S754_zero _) => false
  | VFloat _ => true
  | VStr s => negb (String.eqb s "")
  | VList l => match l with [] => false | _ => true end
  | VDict d => match d with [] => false | _ => true end
  end.

(** [a or b]. *)
Definition or_ (a b : value) : value := if truthy a then a else b.

Fixpoint assoc (k : string) (d : list (string * value)) : option value :=
  match d with
  | [] => None
  | (k', v) :: d' => if String.eqb k k' then Some v else assoc k d'
  end.

(** [d.get(k, default)] on the bindings of a [dict]. *)
Definition field (d : list (string * value)) (k : string) (default : value)
  : value :=
  match assoc k d with
  | Some x => x
  | None => default
  end.

(** [v.get(k, default)]: only a [dict] has the method. *)
Definition get (v : value) (k : string) (default : value) : result value :=
  match v with
  | VDict d => Ok (field d k default)
  | _ => Raise AttributeError
  end.

(** [v == s] for a [str] [s]. *)
Definition eq_str (v : value) (s : string) : bool :=
  match v with
  | VStr s' => String.eqb s' s
  | _ => false
  end.

(** [n >= v] for an [int] [n]: numbers are compared by their exact
    value, a NaN compares false, other types are not ordered with [int]. *)
Definition int_ge (n : Z) (v : value) : result bool :=
  match v with
  | VInt z => Ok (z <=? n)
  | VBool b => Ok ((if b then 1 else 0) <=? n)
  | VFloat (S754_zero _) => Ok (0 <=? n)
  | VFloat (S754_infinity s) => Ok s
  | VFloat S754_nan => Ok false
  | VFloat (S754_finite s m e) =>
      let sm := if s then Z.neg m else Z.pos m in
      Ok (if 0 <=? e then sm * 2 ^ e <=? n else sm <=? n * 2 ^ (- e))
  | _ => Raise TypeError
  end.

(** [float(n)] for an [int]: round to nearest even in binary64. *)
Definition float_of_int (z : Z) : result spec_float :=
  match binary_normalize 53 1024 z 0 false with
  | S754_infinity _ => Raise OverflowError
  | f => Ok f
  end.

(** [int(f)] for a [float]: truncation towards zero. *)
Definition int_of_float (f : spec_float) : result Z :=
  match f with
  | S754_zero _ => Ok 0
  | S754_infinity _ => Raise OverflowError
  | S754_nan => Raise ValueError
  | S754_finite s m e =>
      let a := if 0 <=? e then Z.pos m * 2 ^ e else Z.pos m / 2 ^ (- e) in
      Ok (if s then - a else a)
  end.

(** The key under which an object is filed in [payment_store].  A [str] is
    its own key.  A list or a dict is unhashable: Python raises [TypeError].
    A number or a boolean is hashable, and Python files the record under
    it; the store of this development has [str] keys only, as the code
    declares, so such a run is marked [NonStrKey], and the statements about
    what a handler stores exclude it by hypothesis. *)
Definition as_key (v : value) : result string :=
  match v with
  | VStr s => Ok s
  | VList _ | VDict _ => Raise TypeError
  | _ => Raise NonStrKey
  end.

End Py.

(** ** Status normalizer *)

(** [(raw or "").lower().strip()]. *)
Definition normal_form (raw : value) : result string :=
  match Py.or_ raw (VStr "") with
  | VStr s => Ok (PyStr.strip (PyStr.lower s))
  | _ => Raise AttributeError
  end.

Definition map_lipana_status (raw : value) : result string :=
  match normal_form raw with
  | Ok raw =>
      if PyStr.str_in raw ["success"; "completed"] then Ok "success"
      else if PyStr.str_in raw ["failed"; "failure"; "cancelled"; "canceled"]
      then Ok "failed"
      else Ok "pending"
  | Raise e => Raise e
  end.

(** ** Records, state and the monads of the embedding *)

Global Instance result_ret : MRet result := @Ok.
Global Instance result_bind : MBind result := λ A B f m,
  match m with
  | Ok a => f a
  | Raise e => Raise e
  end.

(** One record of [payment_store]: the dict [{status, phone, amount}]. *)
Record record : Type := { status : string; phone : string; amount : value }.

(** Outbound calls to the provider's API. *)
Inductive request : Type :=
| ListTransactions (page : Z)
| PushStk (phone : string) (amount : Z).

(** The state a handler runs in: the store and the log of outbound calls. *)
Record state : Type :=
  { payment_store : gmap string record; outbound : list request }.

(** A computation reads and writes the state and returns or raises; what
    it wrote before raising stays written. *)
Definition M (A : Type) : Type := state → result A * state.

Global Instance M_ret : MRet M := λ A a st, (Ok a, st).
Global Instance M_bind : MBind M := λ A B f m st,
  match m st with
  | (Ok a, st') => f a st'
  | (Raise e, st') => (Raise e, st')
  end.

Definition lift {A} (r : result A) : M A := λ st, (r, st).
Definition raise {A} (e : exn) : M A := lift (Raise e).

(** [try: c except ...: h e]; [h] answers [None] for an exception that the
    clause does not catch. *)
Definition try_except {A} (c : M A) (h : exn → option (M A)) : M A := λ st,
  match c st with
  | (Raise e, st') =>
      match h e with
      | Some k => k st'
      | None => (Raise e, st')
      end
  | r => r
  end.

Definition store_get (k : string) : M (option record) := λ st,
  (Ok (payment_store st !! k), st).

(** [payment_store[k] = r]. *)
Definition with_record (st : state) (k : string) (r : record) : state :=
  {| payment_store := <[k := r]> (payment_store st);
     outbound := outbound st |}.

Definition store_set (k : string) (r : record) : M unit := λ st,
  (Ok tt, with_record st k r).

(** [record["status"] = s] on the dict [r]. *)
Definition set_status (s : string) (r : record) : record :=
  {| status := s; phone := phone r; amount := amount r |}.

(** ** The world outside the application *)

Record world : Type := {
  (** the configured webhook secret (the entry point refuses to start
      without one) *)
  LIPANA_WEBHOOK_SECRET : string;
  (** [hmac.new(secret.encode("utf-8"), payload, hashlib.sha256).hexdigest()] *)
  hmac_sha256_hexdigest : string → list Byte.byte → string;
  (** [json.loads] on the raw bytes of a request *)
  json_loads : list Byte.byte → result value;
  (** [str(v)] for an object that is not a [str] *)
  str_of_object : value → string;
  (** [float(s)] for a [str]; [None] is a [ValueError] *)
  float_of_str : string → option spec_float;
  (** the provider: its response to the n-th outbound call of the process *)
  remote : nat → request → response;
}.

(** [requests.get] / [requests.post]: the call is logged and answered. *)
Definition send (W : world) (rq : request) : M response := λ st,
  (Ok (remote W (length (outbound st)) rq),
   {| payment_store := payment_store st; outbound := outbound st ++ [rq] |}).

(** [raise_for_status] raises for 4xx and 5xx; [resp.ok] is its negation. *)
Definition ok (status_code : Z) : bool :=
  negb ((400 <=? status_code) && (status_code <? 600)).

(** [resp.json()]. *)
Definition resp_json (json : option value) : result value :=
  match json with
  | Some v => Ok v
  | None => Raise (RequestException InvalidJSON)
  end.

(** ** Remote status fetcher *)

(** How one turn of the page loop ends. *)
Inductive flow : Type :=
| Return (r : option string)
| Break
| Continue.

(** [for tx in items: if tx.get("transactionId") == transaction_id: ...]:
    the raw status of the first matching item. *)
Fixpoint scan_items (transaction_id : string) (items : list value)
  : result (option value) :=
  match items with
  | [] => Ok None
  | tx :: rest =>
      id ← Py.get tx "transactionId" VNone;
      if Py.eq_str id transaction_id
      then raw_status ← Py.get tx "status" (VStr ""); Ok (Some raw_status)
      else scan_items transaction_id rest
  end.

(** [items = body.get("data", [])], unwrapped when it is a dict. *)
Definition page_items (body : value) : result value :=
  items ← Py.get body "data" (VList []);
  match items with
  | VDict _ => Py.get items "data" (VList [])
  | _ => Ok items
  end.

(** The scan of a page that has records, and the look at the pagination. *)
Definition scan_records (transaction_id : string) (page : Z) (body : value)
    (items : list value) : result flow :=
  found ← scan_items transaction_id items;
  match found with
  | Some raw_status =>
      s ← map_lipana_status raw_status; Ok (Return (Some s))
  | None =>
      pagination ← Py.get body "pagination" (VDict []);
      total_pages ← Py.get pagination "pages" (VInt 1);
      last ← Py.int_ge page total_pages;
      Ok (if last : bool then Break else Continue)
  end.

(** The body of the loop once [requests.get] has returned a response. *)
Definition scan_page (transaction_id : string) (page : Z)
    (status_code : Z) (json : option value) : result flow :=
  if negb (ok status_code) then Ok (Return None)
  else
    body ← resp_json json;
    items ← page_items body;
    match items with
    | VList [] => Ok Break
    | VList l => scan_records transaction_id page body l
    | _ => Ok Break
    end.

(** [requests.get(.../transactions, params={limit: 100, page: page})]. *)
Definition requests_get (W : world) (page : Z) : M (Z * option value) :=
  resp ← send W (ListTransactions page);
  match resp with
  | RespTimeout => raise (RequestException Timeout)
  | RespConnectionError => raise (RequestException ConnectionError)
  | RespHttp c j => mret (c, j)
  end.

(** [while page <= 3: ...]; leaving the loop falls on [return None]. *)
Fixpoint while_page (W : world) (fuel : nat) (transaction_id : string)
    (page : Z) : M (option string) :=
  match fuel with
  | O => mret None
  | S fuel' =>
      if page <=? 3 then
        resp ← requests_get W page;
        fl ← lift (scan_page transaction_id page resp.1 resp.2);
        match fl with
        | Return r => mret r
        | Break => mret None
        | Continue => while_page W fuel' transaction_id (page + 1)
        end
      else mret None
  end.

(** The result [{"status": s}] is [Some s], [None] is [None]. *)
Definition fetch_lipana_status (W : world) (transaction_id : string)
  : M (option string) :=
  try_except (while_page W 4 transaction_id 1)
    (λ e, match e with
          | RequestException _ => Some (mret None)
          | _ => None
          end).

(** ** HTTP replies of the handlers *)

(** [jsonify(body), code]. *)
Record reply : Type := { code : Z; body : value }.

Definition jsonify (fields : list (string * value)) (code : Z) : reply :=
  {| code := code; body := VDict fields |}.

(** ** Status polling: GET /status/<tracking_id> *)

(** The block "active API poll while still pending" and the reply.
    [record] is the dict held by the store under [tracking_id], so writing
    [record["status"]] writes the store. *)
Definition poll_pending (W : world) (tracking_id : string) (record0 : record)
  : M reply :=
  refreshed ←
    (if String.eqb (status record0) "pending" then
       live ← fetch_lipana_status W tracking_id;
       match live with
       | Some s =>
           if negb (String.eqb s "pending") then
             let r := set_status s record0 in
             _ ← store_set tracking_id r; mret r
           else mret record0
       | None => mret record0
       end
     else mret record0);
  mret (jsonify [("status", VStr (status refreshed));
                 ("phone", VStr (phone refreshed));
                 ("amount", amount refreshed)] 200).

Definition check_status (W : world) (tracking_id : string) : M reply :=
  record0 ← store_get tracking_id;
  match record0 with
  | Some r => poll_pending W tracking_id r
  | None =>
      live ← fetch_lipana_status W tracking_id;
      match live with
      | Some s =>
          let r := {| status := s; phone := "Recovered"; amount := VInt 0 |} in
          _ ← store_set tracking_id r;
          poll_pending W tracking_id r
      | None => mret (jsonify [("status", VStr "not_found")] 404)
      end
  end.

(** ** Webhook: POST /webhook *)

(** [hmac.compare_digest] on two [str]: both must be ASCII. *)
Definition compare_digest (a b : string) : result bool :=
  if PyStr.isascii a && PyStr.isascii b then Ok (String.eqb a b)
  else Raise TypeError.

Definition verify_webhook_signature (W : world) (payload_bytes : list Byte.byte)
    (signature : string) : result bool :=
  let expected :=
    hmac_sha256_hexdigest W (LIPANA_WEBHOOK_SECRET W) payload_bytes in
  compare_digest signature expected.

(** [v.lstrip("+")]: only a [str] has the method. *)
Definition lstrip_plus (v : value) : result string :=
  match v with
  | VStr s => Ok (PyStr.lstrip_char "+"%char s)
  | _ => Raise AttributeError
  end.

(** The handler after the body has been parsed: reading the event and
    updating the store. *)
Definition webhook_apply (data : value) : M reply :=
  event ← lift (Py.get data "event" (VStr ""));
  event_data ← lift (Py.get data "data" (VDict []));
  id ← lift (Py.get event_data "transactionId" VNone);
  transaction_id ←
    (if Py.truthy id then mret id
     else lift (Py.get event_data "transaction_id" (VStr "")));
  raw_status ← lift (Py.get event_data "status" (VStr ""));
  resolved ← lift (map_lipana_status raw_status);
  key ← lift (Py.as_key transaction_id);
  known ← store_get key;
  _ ← match known with
      | Some r => store_set key (set_status resolved r)
      | None =>
          p ← lift (Py.get event_data "phone" (VStr ""));
          p ← lift (lstrip_plus p);
          a ← lift (Py.get event_data "amount" VNone);
          store_set key {| status := resolved; phone := p; amount := a |}
      end;
  mret (jsonify [("received", VBool true)] 200).

(** [signature_header] is the X-Lipana-Signature header when the request
    has one. *)
Definition webhook (W : world) (raw_payload : list Byte.byte)
    (signature_header : option string) : M reply :=
  let signature := default "" signature_header in
  if String.eqb signature "" then
    mret (jsonify [("error", VStr "Missing signature")] 401)
  else
    verified ← lift (verify_webhook_signature W raw_payload signature);
    if negb verified then
      mret (jsonify [("error", VStr "Invalid signature")] 401)
    else
      match json_loads W raw_payload with
      | Raise JSONDecodeError =>
          mret (jsonify [("error", VStr "Invalid JSON")] 400)
      | Raise e => raise e
      | Ok data => webhook_apply data
      end.

(** ** Payment initiation: POST /pay *)

(** [str(v)]. *)
Definition str (W : world) (v : value) : string :=
  match v with
  | VStr s => s
  | _ => str_of_object W v
  end.

(** [float(v)]. *)
Definition float (W : world) (v : value) : result spec_float :=
  match v with
  | VInt z => Py.float_of_int z
  | VBool b => Py.float_of_int (if b then 1 else 0)
  | VFloat f => Ok f
  | VStr s =>
      match float_of_str W s with
      | Some f => Ok f
      | None => Raise ValueError
      end
  | _ => Raise TypeError
  end.

(** [int(float(amount))]. *)
Definition parse_amount (W : world) (amount : value) : result Z :=
  f ← float W amount; Py.int_of_float f.

(** [a or b or c or d or ""] over the fields of the provider's answer. *)
Fixpoint first_truthy (data : value) (keys : list string) : result value :=
  match keys with
  | [] => Ok (VStr "")
  | k :: keys' =>
      v ← Py.get data k VNone;
      if Py.truthy v then Ok v else first_truthy data keys'
  end.

(** The handler once the inputs are validated and the phone normalised:
    the call to the provider and the pending record. *)
Definition push_stk (W : world) (phone : string) (amount : Z) : M reply :=
  resp ← send W (PushStk ("+" +:+ phone) amount);
  match resp with
  | RespTimeout =>
      mret (jsonify
        [("error", VStr "Payment gateway timed out. Please try again.")] 504)
  | RespConnectionError =>
      mret (jsonify [("error", VStr "Could not reach payment gateway")] 502)
  | RespHttp c json =>
      if negb (ok c) then
        let error_body := match json with Some j => j | None => VDict [] end in
        msg ← lift (Py.get error_body "message"
                      (VStr "Payment initiation failed"));
        mret (jsonify [("error", msg)] 502)
      else
        match json with
        | None =>
            mret (jsonify
              [("error", VStr "Could not reach payment gateway")] 502)
        | Some result =>
            data ← lift (Py.get result "data" result);
            transaction_id ← lift (first_truthy data
              ["transactionId"; "transaction_id"; "checkoutRequestID";
               "checkout_request_id"]);
            if negb (Py.truthy transaction_id) then
              mret (jsonify
                [("error", VStr "Unexpected response from payment gateway")]
                502)
            else
              key ← lift (Py.as_key transaction_id);
              _ ← store_set key {| status := "pending"; phone := phone;
                                   amount := VInt amount |};
              mret (jsonify [("trackingId", transaction_id)] 200)
        end
  end.

(** [json] is [request.get_json(silent=True)]: the parsed body, [VNone]
    when there is none or it does not parse. *)
Definition initiate_payment (W : world) (json : value) : M reply :=
  let body := Py.or_ json (VDict []) in
  p ← lift (Py.get body "phone" (VStr ""));
  let phone := PyStr.strip (str W p) in
  amount ← lift (Py.get body "amount" VNone);
  if String.eqb phone "" then
    mret (jsonify [("error", VStr "Phone number is required")] 400)
  else if negb (Py.truthy amount) then
    mret (jsonify [("error", VStr "Amount is required")] 400)
  else
    match parse_amount W amount with
    | Raise ValueError | Raise TypeError =>
        mret (jsonify [("error", VStr "Amount must be a valid number")] 400)
    | Raise e => raise e
    | Ok amount =>
        if amount <? 10 then
          mret (jsonify
            [("error", VStr "Minimum payment amount is KES 10")] 400)
        else
          let phone := PyStr.lstrip_char "0"%char
                         (PyStr.lstrip_char "+"%char phone) in
          let phone := if PyStr.startswith "254" phone then phone
                       else "254" +:+ phone in
          push_stk W phone amount
    end.

(** * Vocabulary of the statements *)

Definition success_words : list string := ["success"; "completed"].
Definition failed_words : list string :=
  ["failed"; "failure"; "cancelled"; "canceled"].

(** The decision the normalizer takes on the normal form [w]. *)
Definition status_of_word (w : string) : string :=
  if PyStr.str_in w success_words then "success"
  else if PyStr.str_in w failed_words then "failed" else "pending".

(** What a page of the provider's list is, for the scan of one tracking id. *)
Inductive page_kind : Type :=
| Failure            (* the request failed: time-out, connection, HTTP status *)
| NoRecords          (* an empty or malformed page *)
| Match (s : string) (* a record of the tracking id, its status normalized *)
| LastPage           (* no such record, and the page is the provider's last *)
| MorePages.         (* no such record, and the provider announces more *)

(** The list of records of a page: the array under "data", or under "data"
    of the object under "data". *)
Definition items_of (d : list (string * value)) : value :=
  match Py.field d "data" (VList []) with
  | VDict inner => Py.field inner "data" (VList [])
  | v => v
  end.

(** A record of another transaction. *)
Definition other_record (tid : string) (tx : value) : Prop :=
  ∃ d, tx = VDict d ∧ Py.eq_str (Py.field d "transactionId" VNone) tid = false.

(** The number of pages the provider reports, 1 when it reports none. *)
Definition total_pages (d : list (string * value)) (v : value) : Prop :=
  ∃ pg, Py.field d "pagination" (VDict []) = VDict pg ∧
        v = Py.field pg "pages" (VInt 1).

Inductive page_is (tid : string) (page : Z) : response → page_kind → Prop :=
| is_timeout : page_is tid page RespTimeout Failure
| is_connection_error : page_is tid page RespConnectionError Failure
| is_http_error c j :
    ok c = false → page_is tid page (RespHttp c j) Failure
| is_not_json c :
    ok c = true → page_is tid page (RespHttp c None) NoRecords
| is_no_records c d :
    ok c = true →
    (∀ x l, items_of d ≠ VList (x :: l)) →
    page_is tid page (RespHttp c (Some (VDict d))) NoRecords
| is_match c d pre tx post s :
    ok c = true →
    items_of d = VList (pre ++ VDict tx :: post) →
    Forall (other_record tid) pre →
    Py.eq_str (Py.field tx "transactionId" VNone) tid = true →
    map_lipana_status (Py.field tx "status" (VStr "")) = Ok s →
    page_is tid page (RespHttp c (Some (VDict d))) (Match s)
| is_last_page c d x l v :
    ok c = true →
    items_of d = VList (x :: l) →
    Forall (other_record tid) (x :: l) →
    total_pages d v →
    Py.int_ge page v = Ok true →
    page_is tid page (RespHttp c (Some (VDict d))) LastPage
| is_more_pages c d x l v :
    ok c = true →
    items_of d = VList (x :: l) →
    Forall (other_record tid) (x :: l) →
    total_pages d v →
    Py.int_ge page v = Ok false →
    page_is tid page (RespHttp c (Some (VDict d))) MorePages.

(** What the fetcher answers when the scan ends on a page of that kind. *)
Definition answer (k : page_kind) : option string :=
  match k with
  | Match s => Some s
  | _ => None
  end.

(** The calls for [n] pages from [page] on, and the state after them. *)
Fixpoint pages_from (page : Z) (n : nat) : list request :=
  match n with
  | O => []
  | S n' => ListTransactions page :: pages_from (page + 1) n'
  end.

Definition after_pages (st : state) (page : Z) (n : nat) : state :=
  {| payment_store := payment_store st;
     outbound := outbound st ++ pages_from page n |}.

(** The provider's response to the call for [page] made as the [j]-th call
    from state [st] on. *)
Definition resp_at (W : world) (st : state) (j : nat) (page : Z) : response :=
  remote W (length (outbound st) + j) (ListTransactions page).

(** One turn of the loop on a response of the provider. *)
Definition page_flow (tid : string) (page : Z) (resp : response)
  : result flow :=
  match resp with
  | RespTimeout => Raise (RequestException Timeout)
  | RespConnectionError => Raise (RequestException ConnectionError)
  | RespHttp c j => scan_page tid page c j
  end.

(** The fetcher started at a later page, with the same exception clause. *)
Definition fetch_from (W : world) (fuel : nat) (tid : string) (page : Z)
  : M (option string) :=
  try_except (while_page W fuel tid page)
    (λ e, match e with
          | RequestException _ => Some (mret None)
          | _ => None
          end).

(** The request for a page failed: it timed out, the connection failed, or
    the HTTP status is an error status. *)
Definition transport_failure (resp : response) : Prop :=
  resp = RespTimeout ∨ resp = RespConnectionError ∨
  ∃ c j, resp = RespHttp c j ∧ ok c = false.

(** [event_data.get("transactionId") or event_data.get("transaction_id", "")]
    on the bindings of the data object. *)
Definition event_id (ed : list (string * value)) : value :=
  let id := Py.field ed "transactionId" VNone in
  if Py.truthy id then id else Py.field ed "transaction_id" (VStr "").

(** The parsed body [data] is an event: an object whose data object is [ed],
    with the tracking id [key] and a status that normalizes to [s]. *)
Definition reads_as (data : value) (ed : list (string * value))
    (key s : string) : Prop :=
  ∃ d, data = VDict d ∧
       Py.field d "data" (VDict []) = VDict ed ∧
       event_id ed = VStr key ∧
       map_lipana_status (Py.field ed "status" (VStr "")) = Ok s.

(** The request carries a signature that verifies and a body that parses
    to [data]. *)
Definition verified (W : world) (raw_payload : list Byte.byte)
    (signature_header : option string) (data : value) : Prop :=
  ∃ sig, signature_header = Some sig ∧ sig ≠ "" ∧
         verify_webhook_signature W raw_payload sig = Ok true ∧
         json_loads W raw_payload = Ok data.

Definition received : reply := jsonify [("received", VBool true)] 200.

(** The one-character signature "é" (U+00E9). *)
Definition e_acute : string := String (ascii_of_N 233) EmptyString.

(** The body of the 200 reply for a record. *)
Definition reply_of (r : record) : reply :=
  jsonify [("status", VStr (status r)); ("phone", VStr (phone r));
           ("amount", amount r)] 200.

(** The record after the poll of the provider returned [live]. *)
Definition refresh (r : record) (live : option string) : record :=
  match live with
  | Some s => if String.eqb s "pending" then r else set_status s r
  | None => r
  end.

(** ** Vocabulary of the further properties *)

(** The lines that normalise the phone in [initiate_payment]:
    [phone.lstrip("+").lstrip("0")], then "254" in front unless the phone
    starts with it. *)
Definition normalise_phone (phone : string) : string :=
  let phone := PyStr.lstrip_char "0"%char
                 (PyStr.lstrip_char "+"%char phone) in
  if PyStr.startswith "254" phone then phone else "254" +:+ phone.

(** The state after one more outbound call. *)
Definition logged (st : state) (rq : request) : state :=
  {| payment_store := payment_store st; outbound := outbound st ++ [rq] |}.

(** The record [initiate_payment] stores. *)
Definition pending_record (phone : string) (amount : Z) : record :=
  {| status := "pending"; phone := phone; amount := VInt amount |}.

(** The field names under which the provider's answer may carry the id. *)
Definition id_keys : list string :=
  ["transactionId"; "transaction_id"; "checkoutRequestID";
   "checkout_request_id"].

(** The body of a POST /pay passes the validation with the stripped phone
    [phone] and the converted amount [n]. *)
Definition valid_pay (W : world) (json : value) (phone : string) (n : Z)
  : Prop :=
  ∃ d, Py.or_ json (VDict []) = VDict d ∧
       phone = PyStr.strip (str W (Py.field d "phone" (VStr ""))) ∧
       phone ≠ "" ∧
       Py.truthy (Py.field d "amount" VNone) = true ∧
       parse_amount W (Py.field d "amount" VNone) = Ok n ∧
       10 ≤ n.

(** The status values of the store (the comment on [payment_store]). *)
Definition valid_status (s : string) : Prop :=
  s = "pending" ∨ s = "success" ∨ s = "failed".

Definition statuses_valid (store : gmap string record) : Prop :=
  ∀ k r, store !! k = Some r → valid_status (status r).

(** The digest a webhook request has to carry. *)
Definition expected_signature (W : world) (raw_payload : list Byte.byte)
  : string :=
  hmac_sha256_hexdigest W (LIPANA_WEBHOOK_SECRET W) raw_payload.

(** A page with records of other transactions only, whose pagination
    reports the integer [total] as the number of pages. *)
Definition other_page (tid : string) (total : Z) (resp : response) : Prop :=
  ∃ c d x l pg,
    resp = RespHttp c (Some (VDict d)) ∧
    ok c = true ∧
    items_of d = VList (x :: l) ∧
    Forall (other_record tid) (x :: l) ∧
    Py.field d "pagination" (VDict []) = VDict pg ∧
    Py.field pg "pages" (VInt 1) = VInt total.

(** * Worlds to run the handlers in *)

Module Demo.

(** A world given by its JSON parser and its provider; the digest, [str]
    and [float] are stand-ins that suffice to run the examples. *)
Definition world_of (loads : list Byte.byte → result value)
    (provider : nat → request → response) : world :=
  {| LIPANA_WEBHOOK_SECRET := "whsec_demo";
     hmac_sha256_hexdigest := λ _ payload,
       if decide (payload = []) then "e3b0c442" else "9f86d081";
     json_loads := loads;
     str_of_object := λ _, "None";
     float_of_str := λ _, None;
     remote := provider |}.

Definition no_json : list Byte.byte → result value :=
  λ _, Raise JSONDecodeError.

Definition st0 : state := {| payment_store := ∅; outbound := [] |}.

Definition tx (id st : string) : value :=
  VDict [("transactionId", VStr id); ("amount", VInt 50);
         ("status", VStr st)].

Definition page (items : list value) (pages : Z) : response :=
  RespHttp 200 (Some (VDict [("data", VList items);
                             ("pagination", VDict [("pages", VInt pages)])])).

(** Two pages of two records, the one looked for on the second page. *)
Definition two_pages : nat → request → response := λ _ rq,
  match rq with
  | ListTransactions 1 => page [tx "txn_a" "completed"; tx "txn_b" "failed"] 3
  | ListTransactions 2 => page [tx "txn_c" "pending"; tx "txn_d" "Completed"] 3
  | _ => RespConnectionError
  end.

(** Pages of 100 synthetic records each; record [i] of page [p] has the
    id made of the characters [p] and [i]. *)
Definition synthetic_id (p : Z) (i : nat) : string :=
  String (ascii_of_N (Z.to_N (48 + p))) (String (ascii_of_nat i) "").

Definition synthetic_page (p total : Z) : response :=
  page ((λ i, tx (synthetic_id p i) "completed") <$> seq 0 100) total.

Definition synthetic : Z → nat → request → response := λ total _ rq,
  match rq with
  | ListTransactions p => synthetic_page p total
  | _ => RespConnectionError
  end.

End Demo.

Module DemoFailure.

(** A first page that announces more, then a time-out. *)
Definition provider : nat → request → response := λ _ rq,
  match rq with
  | ListTransactions 1 => Demo.page [Demo.tx "txn_a" "completed"] 2
  | _ => RespTimeout
  end.

End DemoFailure.

Module DemoHook.

(** A request whose signature is the digest of the demo world and whose
    body the demo parser reads as the given document. *)
Definition payload : list Byte.byte := [Byte.x7b; Byte.x7d].
Definition signature : string := "9f86d081".
Definition world_reading (data : value) : world :=
  Demo.world_of (λ _, Ok data) (λ _ _, RespConnectionError).

Definition event (fields : list (string * value)) : value :=
  VDict [("event", VStr "payment.update"); ("data", VDict fields)].

Definition success_event : value :=
  event [("transactionId", VStr "txn_1"); ("amount", VInt 50);
         ("status", VStr "success"); ("phone", VStr "+254712345678")].

Definition pending_event : value :=
  event [("transactionId", VStr "txn_1"); ("amount", VInt 50);
         ("status", VStr "pending"); ("phone", VStr "+254712345678")].

(** An event that carries no amount. *)
Definition no_amount_event : value :=
  event [("transactionId", VStr "txn_1"); ("status", VStr "success");
         ("phone", VStr "+254712345678")].

(** Events that carry no tracking id. *)
Definition no_id_event (st : string) : value :=
  event [("amount", VInt 70); ("status", VStr st);
         ("phone", VStr "+254700000001")].

Definition paid : record :=
  {| status := "success"; phone := "254712345678"; amount := VInt 50 |}.

(** A store in which txn_1 is already paid. *)
Definition st_paid : state :=
  {| payment_store := {[ "txn_1" := paid ]}; outbound := [] |}.

End DemoHook.

Module DemoPay.

(** A valid body of POST /pay, and worlds whose provider answers the push
    with a given response. *)
Definition body : value :=
  VDict [("phone", VStr "0712345678"); ("amount", VInt 50)].

Definition world_answering (resp : response) : world :=
  Demo.world_of Demo.no_json (λ _ _, resp).

(** An answer that carries the id under a legacy name, without the "data"
    wrapper. *)
Definition legacy_answer : response :=
  RespHttp 200 (Some (VDict [("transactionId", VStr "");
                             ("checkoutRequestID", VStr "ws_CO_1");
                             ("checkout_request_id", VStr "other")])).

(** A world for a whole payment: the provider accepts the push with the id
    txn_9, and the webhook parser reads a success event for txn_9. *)
Definition paid_event : value :=
  VDict [("event", VStr "payment.success");
         ("data", VDict [("transactionId", VStr "txn_9");
                         ("status", VStr "success");
                         ("phone", VStr "+254712345678")])].

Definition world_paying : world :=
  Demo.world_of (λ _, Ok paid_event)
    (λ _ _, RespHttp 200
              (Some (VDict [("data",
                             VDict [("transactionId", VStr "txn_9")])]))).

End DemoPay.

Module DemoBad.

(** Providers whose first page is malformed in a way that the page loop
    does not test. *)
Definition answering (body : value) : world :=
  Demo.world_of Demo.no_json (λ _ _, RespHttp 200 (Some body)).

Definition not_an_object : value := VList [].

Definition item_not_an_object : value :=
  VDict [("data", VList [VStr "txn_a"])].

Definition status_not_a_string : value :=
  VDict [("data", VList [VDict [("transactionId", VStr "txn_a");
                                ("status", VInt 5)]])].

Definition pagination_null : value :=
  VDict [("data", VList [Demo.tx "txn_b" "failed"]); ("pagination", VNone)].

Definition pages_a_string : value :=
  VDict [("data", VList [Demo.tx "txn_b" "failed"]);
         ("pagination", VDict [("pages", VStr "5")])].

(** Bodies of POST /pay that the validation does not answer, and a world
    whose provider never replies. *)
Definition silent : world := Demo.world_of Demo.no_json (λ _ _, RespTimeout).

Definition pay_infinite : value :=
  VDict [("phone", VStr "0712345678");
         ("amount", VFloat (S754_infinity false))].

Definition pay_huge : value :=
  VDict [("phone", VStr "0712345678"); ("amount", VInt (10 ^ 400))].

Definition pay_not_an_object : value := VList [VInt 1].

(** Events without tracking id whose status is a number, or whose phone is
    null. *)
Definition event_status_number : value :=
  DemoHook.event [("status", VInt 5)].

Definition event_phone_null : value :=
  DemoHook.event [("status", VStr "success"); ("phone", VNone)].

End DemoBad.

Module DemoPoll.

(** A store in which txn_a is pending, and a provider whose every page
    lists txn_a as completed and txn_b as failed and announces [total]
    pages. *)
Definition pending : record :=
  {| status := "pending"; phone := "254712345678"; amount := VInt 50 |}.

Definition st_pending : state :=
  {| payment_store := {[ "txn_a" := pending ]}; outbound := [] |}.

Definition others (total : Z) : nat → request → response := λ _ _,
  Demo.page [Demo.tx "txn_a" "completed"; Demo.tx "txn_b" "failed"] total.

End DemoPoll.

(** * Properties *)

(** ** Examples of the status normalizer *)

Example map_lipana_status_examples :
  map_lipana_status <$>
    [VStr "SUCCESS"; VStr "Completed"; VStr "completed ";
     VStr "failed"; VStr "FAILURE"; VStr "cancelled"; VStr "Canceled";
     VStr ""; VStr "weird_status"; VStr "processing"] =
  [Ok "success"; Ok "success"; Ok "success";
   Ok "failed"; Ok "failed"; Ok "failed"; Ok "failed";
   Ok "pending"; Ok "pending"; Ok "pending"].
Proof. reflexivity. Qed.

(** An absent status ([None]) reads as pending; a number has no [lower]. *)
Example map_none : map_lipana_status VNone = Ok "pending".
Proof. reflexivity. Qed.

Example map_int : map_lipana_status (VInt 5) = Raise AttributeError.
Proof. reflexivity. Qed.

(** ** Strings *)

Section StringFacts.

Lemma str_in_spec (s : string) (l : list string) :
  PyStr.str_in s l = true ↔ s ∈ l.
Proof.
  induction l as [|x l IH]; simpl.
  - split; [discriminate | intros H; inversion H].
  - rewrite orb_true_iff, IH, String.eqb_eq, elem_of_cons. tauto.
Qed.

Lemma str_in_false (s : string) (l : list string) :
  PyStr.str_in s l = false ↔ s ∉ l.
Proof.
  rewrite <- str_in_spec. destruct (PyStr.str_in s l); split; done.
Qed.

Lemma lower_char_idem (a : ascii) :
  PyStr.lower_char (PyStr.lower_char a) = PyStr.lower_char a.
Proof. destruct a as [[] [] [] [] [] [] [] []]; reflexivity. Qed.

Lemma lower_char_isspace (a : ascii) :
  PyStr.isspace (PyStr.lower_char a) = PyStr.isspace a.
Proof. destruct a as [[] [] [] [] [] [] [] []]; reflexivity. Qed.

Lemma lower_idem (s : string) : PyStr.lower (PyStr.lower s) = PyStr.lower s.
Proof.
  induction s as [|a s IH]; simpl; [done|]. by rewrite lower_char_idem, IH.
Qed.

Lemma lower_app (s t : string) :
  PyStr.lower (s +:+ t) = PyStr.lower s +:+ PyStr.lower t.
Proof. induction s as [|a s IH]; simpl; [done|]. by rewrite IH. Qed.

Lemma lower_blank (s : string) : PyStr.blank (PyStr.lower s) = PyStr.blank s.
Proof.
  induction s as [|a s IH]; simpl; [done|].
  by rewrite lower_char_isspace, IH.
Qed.

Lemma lstrip_blank_app (l s : string) :
  PyStr.blank l = true →
  PyStr.lstrip_by PyStr.isspace (l +:+ s) = PyStr.lstrip_by PyStr.isspace s.
Proof.
  induction l as [|a l IH]; simpl; [done|].
  intros [Ha Hl]%andb_true_iff. rewrite Ha. auto.
Qed.

Lemma rstrip_blank (r : string) :
  PyStr.blank r = true → PyStr.rstrip_by PyStr.isspace r = "".
Proof.
  induction r as [|a r IH]; simpl; [done|].
  intros [Ha Hr]%andb_true_iff. by rewrite (IH Hr), Ha.
Qed.

Lemma rstrip_app_blank (s r : string) :
  PyStr.blank r = true →
  PyStr.rstrip_by PyStr.isspace (s +:+ r) = PyStr.rstrip_by PyStr.isspace s.
Proof.
  intros Hr. induction s as [|a s IH]; simpl.
  - by apply rstrip_blank.
  - by rewrite IH.
Qed.

Lemma lstrip_app_blank (s r : string) :
  PyStr.blank r = true →
  PyStr.rstrip_by PyStr.isspace (PyStr.lstrip_by PyStr.isspace (s +:+ r)) =
  PyStr.rstrip_by PyStr.isspace (PyStr.lstrip_by PyStr.isspace s).
Proof.
  intros Hr. induction s as [|a s IH]; simpl.
  - rewrite rstrip_blank; [done|].
    clear -Hr. induction r as [|b r IH]; simpl in *; [done|].
    apply andb_true_iff in Hr as [Hb Hr]. rewrite Hb. auto.
  - destruct (PyStr.isspace a); [done|].
    change (String a (s +:+ r)) with (String a s +:+ r).
    by apply rstrip_app_blank.
Qed.

Lemma strip_pad (l s r : string) :
  PyStr.blank l = true → PyStr.blank r = true →
  PyStr.strip (l +:+ s +:+ r) = PyStr.strip s.
Proof.
  intros Hl Hr. unfold PyStr.strip.
  rewrite lstrip_blank_app by done. by apply lstrip_app_blank.
Qed.

End StringFacts.

(** ** Status normalizer *)

Lemma map_lipana_status_str (raw : string) :
  map_lipana_status (VStr raw) =
  Ok (status_of_word (PyStr.strip (PyStr.lower raw))).
Proof.
  unfold map_lipana_status, normal_form, Py.or_, status_of_word. simpl.
  destruct raw as [|a raw]; simpl; [done|].
  fold success_words failed_words.
  by repeat case_match.
Qed.

Lemma status_of_word_cases (w : string) :
  (w ∈ success_words ∧ status_of_word w = "success") ∨
  (w ∉ success_words ∧ w ∈ failed_words ∧ status_of_word w = "failed") ∨
  (w ∉ success_words ∧ w ∉ failed_words ∧ status_of_word w = "pending").
Proof.
  unfold status_of_word.
  destruct (PyStr.str_in w success_words) eqn:Hs.
  { left. by apply str_in_spec in Hs. }
  apply str_in_false in Hs.
  destruct (PyStr.str_in w failed_words) eqn:Hf.
  - right; left. by apply str_in_spec in Hf.
  - right; right. by apply str_in_false in Hf.
Qed.

Lemma words_disjoint (w : string) : w ∈ success_words → w ∉ failed_words.
Proof.
  unfold success_words, failed_words.
  rewrite !elem_of_cons, !elem_of_nil. intros [->|[->|[]]]; naive_solver.
Qed.

(** C2.  On every string the normalizer returns (it raises nothing), and
    the result is decided by the lower-cased, stripped input [w]: "success"
    exactly when [w] is success or completed, "failed" exactly when [w] is
    failed, failure, cancelled or canceled, "pending" exactly when [w] is
    none of these (the empty string and unknown words included).  The result
    does not change under a change of case or under white space added around
    the input. *)
Theorem map_lipana_status_total (raw : string) :
  let w := PyStr.strip (PyStr.lower raw) in
  (∃ s, map_lipana_status (VStr raw) = Ok s ∧
        s ∈ ["success"; "failed"; "pending"]) ∧
  (map_lipana_status (VStr raw) = Ok "success" ↔
     w ∈ ["success"; "completed"]) ∧
  (map_lipana_status (VStr raw) = Ok "failed" ↔
     w ∈ ["failed"; "failure"; "cancelled"; "canceled"]) ∧
  (map_lipana_status (VStr raw) = Ok "pending" ↔
     w ∉ ["success"; "completed"] ∧
     w ∉ ["failed"; "failure"; "cancelled"; "canceled"]) ∧
  map_lipana_status (VStr (PyStr.lower raw)) = map_lipana_status (VStr raw) ∧
  (∀ l r, PyStr.blank l = true → PyStr.blank r = true →
     map_lipana_status (VStr (l +:+ raw +:+ r)) =
     map_lipana_status (VStr raw)).
Proof.
  intros w. rewrite (map_lipana_status_str raw). fold w.
  change ["success"; "completed"] with success_words.
  change ["failed"; "failure"; "cancelled"; "canceled"] with failed_words.
  pose proof (words_disjoint w) as Hdisj.
  split; [|split; [|split; [|split; [|split]]]].
  - exists (status_of_word w). split; [done|].
    destruct (status_of_word_cases w) as [[_ ->]|[(_ & _ & ->)|(_ & _ & ->)]];
      rewrite !elem_of_cons; auto.
  - destruct (status_of_word_cases w) as [[? ->]|[(? & ? & ->)|(? & ? & ->)]];
      split; intros; done.
  - destruct (status_of_word_cases w) as [[? ->]|[(? & ? & ->)|(? & ? & ->)]];
      split; intros; try done. by destruct Hdisj.
  - destruct (status_of_word_cases w) as [[? ->]|[(? & ? & ->)|(? & ? & ->)]];
      split; try done; intros [? ?]; done.
  - by rewrite map_lipana_status_str, lower_idem.
  - intros l r Hl Hr. rewrite map_lipana_status_str.
    by rewrite !lower_app, strip_pad by (by rewrite lower_blank).
Qed.

(** ** Remote status fetcher *)

Section Fetcher.

Context (W : world) (tid : string).

Lemma scan_items_other (l : list value) :
  Forall (other_record tid) l → scan_items tid l = Ok None.
Proof.
  induction 1 as [|tx l (d & -> & Hne) _ IH]; simpl; [done|].
  by rewrite Hne.
Qed.

Lemma scan_items_match (pre post : list value) tx :
  Forall (other_record tid) pre →
  Py.eq_str (Py.field tx "transactionId" VNone) tid = true →
  scan_items tid (pre ++ VDict tx :: post) =
  Ok (Some (Py.field tx "status" (VStr ""))).
Proof.
  intros Hpre Hm.
  induction Hpre as [|x l (d & -> & Hne) _ IH]; simpl.
  - by rewrite Hm.
  - by rewrite Hne.
Qed.

Lemma page_items_dict (d : list (string * value)) :
  page_items (VDict d) = Ok (items_of d).
Proof.
  unfold page_items, items_of. simpl.
  by destruct (Py.field d "data" (VList [])).
Qed.

Lemma scan_page_ok (page c : Z) (d : list (string * value)) :
  ok c = true →
  scan_page tid page c (Some (VDict d)) =
  match items_of d with
  | VList [] => Ok Break
  | VList l => scan_records tid page (VDict d) l
  | _ => Ok Break
  end.
Proof.
  intros Hc. unfold scan_page. rewrite Hc. simpl resp_json.
  change (mbind ?f (Ok ?a)) with (f a). cbv beta.
  by rewrite page_items_dict.
Qed.

Lemma scan_records_match page body (pre post : list value) tx s :
  Forall (other_record tid) pre →
  Py.eq_str (Py.field tx "transactionId" VNone) tid = true →
  map_lipana_status (Py.field tx "status" (VStr "")) = Ok s →
  scan_records tid page body (pre ++ VDict tx :: post) = Ok (Return (Some s)).
Proof.
  intros Hpre Hm Hs. unfold scan_records.
  rewrite scan_items_match by done. simpl. by rewrite Hs.
Qed.

Lemma scan_records_other page d (l : list value) v :
  Forall (other_record tid) l →
  total_pages d v →
  scan_records tid page (VDict d) l =
  (last ← Py.int_ge page v; Ok (if last : bool then Break else Continue)).
Proof.
  intros Hl (pg & Hpg & ->). unfold scan_records.
  rewrite scan_items_other by done. simpl. by rewrite Hpg.
Qed.

(** The turn of the loop on a page of each kind. *)
Lemma page_flow_kind (page : Z) (resp : response) (k : page_kind) :
  page_is tid page resp k →
  match k with
  | Failure =>
      page_flow tid page resp = Ok (Return None) ∨
      ∃ e, page_flow tid page resp = Raise (RequestException e)
  | NoRecords =>
      page_flow tid page resp = Ok Break ∨
      ∃ e, page_flow tid page resp = Raise (RequestException e)
  | Match s => page_flow tid page resp = Ok (Return (Some s))
  | LastPage => page_flow tid page resp = Ok Break
  | MorePages => page_flow tid page resp = Ok Continue
  end.
Proof.
  destruct 1 as [| |c j Hc|c Hc|c d Hc Hno|c d pre tx post s Hc Hit Hpre Hm Hs
                 |c d x l v Hc Hit Hall Hpg Hge
                 |c d x l v Hc Hit Hall Hpg Hge];
    simpl page_flow; eauto.
  - left. unfold scan_page. by rewrite Hc.
  - right. unfold scan_page. rewrite Hc. simpl. eauto.
  - left. rewrite scan_page_ok by done.
    destruct (items_of d) as [| | | | |[|x l]|] eqn:Hd; try done.
    by destruct (Hno x l).
  - rewrite scan_page_ok, Hit by done.
    destruct (pre ++ VDict tx :: post)%list as [|x l] eqn:E.
    { by destruct pre. }
    rewrite <- E. by apply scan_records_match.
  - rewrite scan_page_ok, Hit by done.
    rewrite (scan_records_other _ _ _ v) by done. by rewrite Hge.
  - rewrite scan_page_ok, Hit by done.
    rewrite (scan_records_other _ _ _ v) by done. by rewrite Hge.
Qed.

Lemma fetch_from_step (fuel : nat) (page : Z) (st : state) :
  page ≤ 3 →
  fetch_from W (S fuel) tid page st =
  match page_flow tid page (resp_at W st 0 page) with
  | Ok (Return r) => (Ok r, after_pages st page 1)
  | Ok Break => (Ok None, after_pages st page 1)
  | Ok Continue => fetch_from W fuel tid (page + 1) (after_pages st page 1)
  | Raise (RequestException _) => (Ok None, after_pages st page 1)
  | Raise e => (Raise e, after_pages st page 1)
  end.
Proof.
  intros Hp. apply Z.leb_le in Hp.
  unfold fetch_from, try_except, resp_at. simpl while_page. rewrite Hp.
  unfold requests_get, send, after_pages, mbind, M_bind, lift, raise, lift.
  rewrite Nat.add_0_r. simpl pages_from.
  destruct (remote W (length (outbound st)) (ListTransactions page))
    as [| |c j]; simpl; try done.
  destruct (scan_page tid page c j) as [[r| |]|e]; simpl; try done.
  by destruct e.
Qed.

Lemma fetch_from_done (fuel : nat) (page : Z) (st : state) :
  3 < page → fetch_from W fuel tid page st = (Ok None, st).
Proof.
  intros Hp. apply Z.leb_gt in Hp.
  unfold fetch_from, try_except. destruct fuel; simpl; [done|].
  by rewrite Hp.
Qed.

Lemma after_pages_0 (st : state) (page : Z) : after_pages st page 0 = st.
Proof. destruct st. unfold after_pages. simpl. by rewrite app_nil_r. Qed.

Lemma after_pages_S (st : state) (page : Z) (n : nat) :
  after_pages (after_pages st page 1) (page + 1) n = after_pages st page (S n).
Proof. unfold after_pages. simpl. by rewrite <- app_assoc. Qed.

Lemma resp_at_S (st : state) (page p : Z) (j : nat) :
  resp_at W (after_pages st page 1) j p = resp_at W st (S j) p.
Proof.
  unfold resp_at, after_pages. simpl. rewrite length_app. simpl.
  f_equal. lia.
Qed.

(** The scan from [page] on: [n] pages that announce more, then a page of
    kind [k] on which the scan ends. *)
Lemma fetch_from_run (n : nat) :
  ∀ (fuel : nat) (page : Z) (st : state) (k : page_kind),
  (n < fuel)%nat →
  page + Z.of_nat n ≤ 3 →
  (∀ j, (j < n)%nat →
     page_is tid (page + Z.of_nat j)
       (resp_at W st j (page + Z.of_nat j)) MorePages) →
  page_is tid (page + Z.of_nat n) (resp_at W st n (page + Z.of_nat n)) k →
  (k = MorePages → page + Z.of_nat n = 3) →
  fetch_from W fuel tid page st =
  (Ok (answer k), after_pages st page (S n)).
Proof.
  induction n as [|n IH]; intros fuel page st k Hfuel Hp Hmore Hk Hlast.
  - destruct fuel as [|fuel]; [lia|].
    rewrite Z.add_0_r in *. rewrite fetch_from_step by done.
    apply page_flow_kind in Hk.
    destruct k; simpl answer.
    + by destruct Hk as [->|[e ->]].
    + by destruct Hk as [->|[e ->]].
    + by rewrite Hk.
    + by rewrite Hk.
    + rewrite Hk. rewrite fetch_from_done by (rewrite Hlast; lia || done).
      done.
  - destruct fuel as [|fuel]; [lia|].
    rewrite fetch_from_step by lia.
    pose proof (Hmore O ltac:(lia)) as H0. rewrite Z.add_0_r in H0.
    apply page_flow_kind in H0. rewrite H0.
    rewrite (IH fuel (page + 1) (after_pages st page 1) k).
    + by rewrite after_pages_S.
    + lia.
    + lia.
    + intros j Hj. rewrite resp_at_S.
      replace (page + 1 + Z.of_nat j) with (page + Z.of_nat (S j)) by lia.
      apply Hmore. lia.
    + rewrite resp_at_S.
      by replace (page + 1 + Z.of_nat n) with (page + Z.of_nat (S n)) by lia.
    + intros ->. specialize (Hlast eq_refl). lia.
Qed.

Lemma map_lipana_status_range (raw : value) (s : string) :
  map_lipana_status raw = Ok s → s ∈ ["success"; "failed"; "pending"].
Proof.
  unfold map_lipana_status. destruct (normal_form raw) as [w|e]; [|done].
  repeat case_match; intros [= <-]; set_solver.
Qed.

Lemma page_flow_range (page : Z) (resp : response) (s : string) :
  page_flow tid page resp = Ok (Return (Some s)) →
  s ∈ ["success"; "failed"; "pending"].
Proof.
  destruct resp as [| |c j]; simpl; try done.
  unfold scan_page. destruct (negb (ok c)); [done|].
  destruct (resp_json j) as [body|e]; simpl; [|done].
  destruct (page_items body) as [items|e]; simpl; [|done].
  destruct items as [| | | | |[|x l]|]; try done.
  unfold scan_records.
  destruct (scan_items tid (x :: l)) as [[raw|]|e]; simpl; try done.
  - destruct (map_lipana_status raw) as [s'|e] eqn:Hs; simpl; [|done].
    intros [= <-]. by eapply map_lipana_status_range.
  - destruct (Py.get body "pagination" (VDict [])) as [pg|e]; simpl; [|done].
    destruct (Py.get pg "pages" (VInt 1)) as [v|e]; simpl; [|done].
    by destruct (Py.int_ge page v) as [[|]|e].
Qed.

(** The loop ends by its own test: fuel beyond the pages left up to page 3
    changes nothing. *)
Lemma fetch_from_fuel (k : nat) :
  ∀ (page : Z) (st : state) (n : nat),
  4 - page ≤ Z.of_nat k →
  fetch_from W (k + n) tid page st = fetch_from W k tid page st.
Proof.
  induction k as [|k IH]; intros page st n Hk.
  - by rewrite !fetch_from_done by lia.
  - destruct (Z.le_gt_cases page 3) as [Hp|Hp].
    + change (S k + n)%nat with (S (k + n)).
      rewrite !fetch_from_step by done.
      destruct (page_flow tid page (resp_at W st 0 page)) as [[r| |]|e];
        try done.
      apply IH. lia.
    + by rewrite !fetch_from_done by done.
Qed.

(** Whatever the provider answers, the scan from [page] on asks for
    consecutive pages up to page 3, leaves the store alone, lets no
    [RequestException] out, and returns a normalized status if any. *)
Lemma fetch_from_frame (fuel : nat) :
  ∀ (page : Z) (st : state),
  ∃ n : nat,
    (n ≤ fuel)%nat ∧ (n = O ∨ page + Z.of_nat n ≤ 4) ∧
    (fetch_from W fuel tid page st).2 = after_pages st page n ∧
    (∀ e, (fetch_from W fuel tid page st).1 ≠ Raise (RequestException e)) ∧
    (∀ s, (fetch_from W fuel tid page st).1 = Ok (Some s) →
          s ∈ ["success"; "failed"; "pending"]).
Proof.
  induction fuel as [|fuel IH]; intros page st.
  - exists O. rewrite after_pages_0. repeat split; auto; (lia || done).
  - destruct (Z.le_gt_cases page 3) as [Hp|Hp].
    + rewrite fetch_from_step by done.
      destruct (page_flow tid page (resp_at W st 0 page))
        as [[[s|]| |]|e] eqn:Hflow.
      * exists 1%nat. repeat split; [lia|right; lia|done|].
        intros s' [= <-]. by eapply page_flow_range.
      * exists 1%nat. repeat split; [lia|right; lia|done|done].
      * exists 1%nat. repeat split; [lia|right; lia|done|done].
      * destruct (IH (page + 1) (after_pages st page 1))
          as (n & Hn & Hb & Hst & He & Hs).
        exists (S n). rewrite Hst, after_pages_S.
        repeat split; [lia|right; lia|done|done].
      * exists 1%nat.
        destruct e; repeat split; try lia; try (right; lia);
          intros ?; simpl; discriminate.
    + rewrite fetch_from_done by done.
      exists O. rewrite after_pages_0. repeat split; auto; (lia || done).
Qed.

End Fetcher.

(** The record looked for is the 58th of page 2 of 3: it is found and page 3
    is not asked for. *)
Example fetch_match_on_page_2 :
  fetch_lipana_status (Demo.world_of Demo.no_json (Demo.synthetic 3))
    (Demo.synthetic_id 2 57) Demo.st0 =
  (Ok (Some "success"),
   {| payment_store := ∅;
      outbound := [ListTransactions 1; ListTransactions 2] |}).
Proof. vm_compute. reflexivity. Qed.

(** No record among 5 announced pages: the scan stops after 3 pages. *)
Example fetch_no_match_5_pages :
  fetch_lipana_status (Demo.world_of Demo.no_json (Demo.synthetic 5))
    "txn_x" Demo.st0 =
  (Ok None,
   {| payment_store := ∅;
      outbound := [ListTransactions 1; ListTransactions 2;
                   ListTransactions 3] |}).
Proof. vm_compute. reflexivity. Qed.

Lemma fetch_lipana_status_from (W : world) (tid : string) :
  fetch_lipana_status W tid = fetch_from W 4 tid 1.
Proof. reflexivity. Qed.

(** The fetcher never writes the store, asks for pages 1, 2, ... in order
    and for three at most, lets no [RequestException] out, and what it
    returns is a normalized status. *)
Lemma fetch_lipana_status_frame (W : world) (tid : string) (st : state) :
  ∃ n : nat,
    (n ≤ 3)%nat ∧
    (fetch_lipana_status W tid st).2 = after_pages st 1 n ∧
    (∀ e, (fetch_lipana_status W tid st).1 ≠ Raise (RequestException e)) ∧
    (∀ s, (fetch_lipana_status W tid st).1 = Ok (Some s) →
          s ∈ ["success"; "failed"; "pending"]).
Proof.
  rewrite fetch_lipana_status_from.
  destruct (fetch_from_frame W tid 4 1 st) as (n & Hn & Hb & Hst & He & Hs).
  exists n. repeat split; [lia|done|done|done].
Qed.

Lemma fetch_lipana_status_store (W : world) (tid : string) (st : state) :
  payment_store (fetch_lipana_status W tid st).2 = payment_store st.
Proof.
  destruct (fetch_lipana_status_frame W tid st) as (n & _ & -> & _). done.
Qed.

(** The scan over pages of the kinds that the loop tests.  Whatever the
    provider answers, the fetcher asks for pages 1, 2, ...
    in order and for three pages at most.  When the first [n] pages (n < 3)
    hold records of other transactions only and announce more pages, the
    page after them decides: (a) a record of the tracking id on it makes the
    fetcher return that record's normalized status; (b) an empty or
    malformed page (no JSON, or no non-empty array of records under "data")
    makes it return nothing; (c) a page without such a record whose number
    reaches the provider's total makes it return nothing; (d) a third page
    that announces more pages makes it return nothing as well (and so does
    a page whose request failed).  In each case no page after the deciding
    one is asked for. *)
Theorem fetch_lipana_status_pages (W : world) (tid : string) (st : state) :
  (∃ m : nat, (m ≤ 3)%nat ∧
     (fetch_lipana_status W tid st).2 = after_pages st 1 m) ∧
  ∀ (n : nat) (k : page_kind),
    (n < 3)%nat →
    (∀ j, (j < n)%nat →
       page_is tid (1 + Z.of_nat j) (resp_at W st j (1 + Z.of_nat j))
         MorePages) →
    page_is tid (1 + Z.of_nat n) (resp_at W st n (1 + Z.of_nat n)) k →
    (k = MorePages → n = 2%nat) →
    fetch_lipana_status W tid st =
    (Ok (match k with Match s => Some s | _ => None end),
     after_pages st 1 (S n)).
Proof.
  split.
  { destruct (fetch_lipana_status_frame W tid st) as (m & Hm & Hst & _).
    eauto. }
  intros n k Hn Hmore Hk Hlast.
  rewrite fetch_lipana_status_from.
  apply (fetch_from_run W tid n 4 1 st k); [lia|lia|done|done|].
  intros Hk'. specialize (Hlast Hk'). lia.
Qed.

Lemma fetch_lipana_status_pages_witness :
  fetch_lipana_status (Demo.world_of Demo.no_json Demo.two_pages)
    "txn_d" Demo.st0 =
  (Ok (Some "success"), after_pages Demo.st0 1 2).
Proof.
  apply (proj2 (fetch_lipana_status_pages
                  (Demo.world_of Demo.no_json Demo.two_pages)
                  "txn_d" Demo.st0) 1%nat (Match "success")).
  - lia.
  - intros j Hj. assert (j = 0%nat) as -> by lia.
    eapply (is_more_pages _ _ _ _ _ _ (VInt 3)).
    + reflexivity.
    + reflexivity.
    + repeat constructor; eexists; split; reflexivity.
    + eexists; split; reflexivity.
    + reflexivity.
  - eapply (is_match _ _ _ _ [Demo.tx "txn_c" "pending"] _ []).
    + reflexivity.
    + reflexivity.
    + repeat constructor; eexists; split; reflexivity.
    + reflexivity.
    + reflexivity.
  - discriminate.
Defined.

(** C3 at failing inputs: a first page that is malformed in a way the loop
    does not test makes the fetcher raise instead of returning nothing.
    The body is JSON but not an object, or an item is not an object, or the
    matching record's status is a number, or "pagination" is null (each an
    [AttributeError]), or "pages" is a string (a [TypeError]); the clause
    [except RequestException] catches none of them. *)
Lemma fetch_lipana_status_malformed_page_raises :
  fetch_lipana_status (DemoBad.answering DemoBad.not_an_object) "txn_a"
    Demo.st0 =
    (Raise AttributeError,
     {| payment_store := ∅; outbound := [ListTransactions 1] |}) ∧
  fetch_lipana_status (DemoBad.answering DemoBad.item_not_an_object) "txn_a"
    Demo.st0 =
    (Raise AttributeError,
     {| payment_store := ∅; outbound := [ListTransactions 1] |}) ∧
  fetch_lipana_status (DemoBad.answering DemoBad.status_not_a_string) "txn_a"
    Demo.st0 =
    (Raise AttributeError,
     {| payment_store := ∅; outbound := [ListTransactions 1] |}) ∧
  fetch_lipana_status (DemoBad.answering DemoBad.pagination_null) "txn_a"
    Demo.st0 =
    (Raise AttributeError,
     {| payment_store := ∅; outbound := [ListTransactions 1] |}) ∧
  fetch_lipana_status (DemoBad.answering DemoBad.pages_a_string) "txn_a"
    Demo.st0 =
    (Raise TypeError,
     {| payment_store := ∅; outbound := [ListTransactions 1] |}).
Proof. repeat split; vm_compute; reflexivity. Qed.

(** X23.  When the pages the provider returns hold records of other
    transactions only and all report the same total as an integer, the
    fetcher asks for pages 1 up to that total, but for one page at least
    and three at most, and returns nothing. *)
Theorem fetch_lipana_status_page_count (W : world) (tid : string)
    (st : state) (total : Z) :
  (∀ j, (j < 3)%nat →
     other_page tid total (resp_at W st j (1 + Z.of_nat j))) →
  fetch_lipana_status W tid st =
  (Ok None, after_pages st 1 (Z.to_nat (Z.min 3 (Z.max 1 total)))).
Proof.
  intros Hpages.
  assert (Hkind : ∀ j, (j < 3)%nat →
            page_is tid (1 + Z.of_nat j) (resp_at W st j (1 + Z.of_nat j))
              (if total <=? 1 + Z.of_nat j then LastPage else MorePages)).
  { intros j Hj.
    destruct (Hpages j Hj) as (c & d & x & l & pg & -> & Hc & Hit & Hall
                               & Hpg & Htot).
    destruct (total <=? 1 + Z.of_nat j) eqn:Hle.
    - apply (is_last_page tid _ c d x l (VInt total)); try done.
      + exists pg. by split.
      + simpl. by rewrite Hle.
    - apply (is_more_pages tid _ c d x l (VInt total)); try done.
      + exists pg. by split.
      + simpl. by rewrite Hle. }
  assert (Hlast : ∀ j, (j < 3)%nat → total ≤ 1 + Z.of_nat j →
            page_is tid (1 + Z.of_nat j) (resp_at W st j (1 + Z.of_nat j))
              LastPage).
  { intros j Hj Hle. pose proof (Hkind j Hj) as H.
    destruct (total <=? 1 + Z.of_nat j) eqn:E; [done|].
    apply Z.leb_gt in E. lia. }
  assert (Hmore : ∀ j, (j < 3)%nat → 1 + Z.of_nat j < total →
            page_is tid (1 + Z.of_nat j) (resp_at W st j (1 + Z.of_nat j))
              MorePages).
  { intros j Hj Hlt. pose proof (Hkind j Hj) as H.
    destruct (total <=? 1 + Z.of_nat j) eqn:E; [|done].
    apply Z.leb_le in E. lia. }
  rewrite fetch_lipana_status_from.
  destruct (Z.le_gt_cases total 1) as [H1|H1].
  { replace (Z.to_nat (Z.min 3 (Z.max 1 total))) with 1%nat by lia.
    apply (fetch_from_run W tid 0 4 1 st LastPage); [lia|lia| | |done].
    - intros j Hj. lia.
    - apply Hlast; lia. }
  destruct (Z.le_gt_cases total 2) as [H2|H2].
  { replace (Z.to_nat (Z.min 3 (Z.max 1 total))) with 2%nat by lia.
    apply (fetch_from_run W tid 1 4 1 st LastPage); [lia|lia| | |done].
    - intros j Hj. apply Hmore; lia.
    - apply Hlast; lia. }
  replace (Z.to_nat (Z.min 3 (Z.max 1 total))) with 3%nat by lia.
  destruct (Z.le_gt_cases total 3) as [H3|H3].
  - apply (fetch_from_run W tid 2 4 1 st LastPage); [lia|lia| | |done].
    + intros j Hj. apply Hmore; lia.
    + apply Hlast; lia.
  - apply (fetch_from_run W tid 2 4 1 st MorePages); [lia|lia| | |].
    + intros j Hj. apply Hmore; lia.
    + apply Hmore; lia.
    + intros _. reflexivity.
Qed.

Lemma fetch_lipana_status_page_count_witness :
  fetch_lipana_status (Demo.world_of Demo.no_json (DemoPoll.others 2))
    "txn_x" Demo.st0 =
  (Ok None, after_pages Demo.st0 1 2).
Proof.
  apply (fetch_lipana_status_page_count
    (Demo.world_of Demo.no_json (DemoPoll.others 2)) "txn_x" Demo.st0 2).
  intros j Hj.
  exists 200,
    [("data", VList [Demo.tx "txn_a" "completed"; Demo.tx "txn_b" "failed"]);
     ("pagination", VDict [("pages", VInt 2)])],
    (Demo.tx "txn_a" "completed"), [Demo.tx "txn_b" "failed"],
    [("pages", VInt 2)].
  repeat split.
  repeat constructor; eexists; split; reflexivity.
Defined.

(** X25.  A match ends the scan at once.  When the first [n] pages (n < 3)
    hold records of other transactions only and report, as an integer, a
    total of pages that lies beyond them, and the page after them lists,
    behind records of other transactions, a record whose transactionId is
    the tracking id and whose status normalizes, the fetcher returns the
    normalized status of that record and asks for no further page,
    whatever the rest of that page and the later pages hold. *)
Theorem fetch_lipana_status_match (W : world) (tid : string) (st : state)
    (n : nat) (total c : Z) (d tx : list (string * value))
    (pre post : list value) (s : string) :
  (n < 3)%nat →
  (∀ j, (j < n)%nat →
     other_page tid total (resp_at W st j (1 + Z.of_nat j))) →
  Z.of_nat n < total →
  resp_at W st n (1 + Z.of_nat n) = RespHttp c (Some (VDict d)) →
  ok c = true →
  items_of d = VList (pre ++ VDict tx :: post)%list →
  Forall (other_record tid) pre →
  Py.field tx "transactionId" VNone = VStr tid →
  map_lipana_status (Py.field tx "status" (VStr "")) = Ok s →
  fetch_lipana_status W tid st = (Ok (Some s), after_pages st 1 (S n)).
Proof.
  intros Hn Hpages Htotal Hresp Hc Hitems Hpre Hid Hs.
  rewrite fetch_lipana_status_from.
  apply (fetch_from_run W tid n 4 1 st (Match s)); [lia|lia| | |done].
  - intros j Hj.
    destruct (Hpages j Hj) as (c' & d' & x & l & pg & -> & Hc' & Hit & Hall
                               & Hpg & Htot).
    apply (is_more_pages tid _ c' d' x l (VInt total)); try done.
    + exists pg. by split.
    + simpl. destruct (total <=? 1 + Z.of_nat j) eqn:E; [|done].
      apply Z.leb_le in E. lia.
  - rewrite Hresp.
    apply (is_match tid _ c d pre tx post s); try done.
    rewrite Hid. simpl. apply String.eqb_refl.
Qed.

Lemma fetch_lipana_status_match_witness :
  fetch_lipana_status (Demo.world_of Demo.no_json Demo.two_pages)
    "txn_d" Demo.st0 =
  (Ok (Some "success"),
   {| payment_store := ∅;
      outbound := [ListTransactions 1; ListTransactions 2] |}).
Proof.
  apply (fetch_lipana_status_match
    (Demo.world_of Demo.no_json Demo.two_pages) "txn_d" Demo.st0 1 3 200
    [("data", VList [Demo.tx "txn_c" "pending"; Demo.tx "txn_d" "Completed"]);
     ("pagination", VDict [("pages", VInt 3)])]
    [("transactionId", VStr "txn_d"); ("amount", VInt 50);
     ("status", VStr "Completed")]
    [Demo.tx "txn_c" "pending"] [] "success").
  - lia.
  - intros j Hj. assert (j = 0%nat) as -> by lia.
    exists 200, [("data", VList [Demo.tx "txn_a" "completed";
                                 Demo.tx "txn_b" "failed"]);
                 ("pagination", VDict [("pages", VInt 3)])],
      (Demo.tx "txn_a" "completed"), [Demo.tx "txn_b" "failed"],
      [("pages", VInt 3)].
    repeat split; try reflexivity.
    repeat constructor; eexists; split; reflexivity.
  - lia.
  - reflexivity.
  - reflexivity.
  - reflexivity.
  - repeat constructor; eexists; split; reflexivity.
  - reflexivity.
  - reflexivity.
Defined.

(** ** Failures of the remote call *)

(** C4.  No [RequestException] leaves the fetcher, and when the request for
    a page fails (time-out, connection error, HTTP error status), on the
    first page or after pages that announced more, the fetcher returns
    nothing instead of raising; no further page is asked for. *)
Theorem fetch_lipana_status_absorbs_failures (W : world) (tid : string)
    (st : state) :
  (∀ e, (fetch_lipana_status W tid st).1 ≠ Raise (RequestException e)) ∧
  ∀ n : nat,
    (n < 3)%nat →
    (∀ j, (j < n)%nat →
       page_is tid (1 + Z.of_nat j) (resp_at W st j (1 + Z.of_nat j))
         MorePages) →
    transport_failure (resp_at W st n (1 + Z.of_nat n)) →
    fetch_lipana_status W tid st = (Ok None, after_pages st 1 (S n)).
Proof.
  split.
  { by destruct (fetch_lipana_status_frame W tid st) as (m & _ & _ & He & _). }
  intros n Hn Hmore Hfail.
  rewrite fetch_lipana_status_from.
  apply (fetch_from_run W tid n 4 1 st Failure); [lia|lia|done| |done].
  destruct Hfail as [->|[->|(c & j & -> & Hc)]]; by constructor.
Qed.

Lemma fetch_lipana_status_absorbs_failures_witness :
  fetch_lipana_status (Demo.world_of Demo.no_json DemoFailure.provider)
    "txn_d" Demo.st0 =
  (Ok None, after_pages Demo.st0 1 2).
Proof.
  apply (proj2 (fetch_lipana_status_absorbs_failures
                  (Demo.world_of Demo.no_json DemoFailure.provider)
                  "txn_d" Demo.st0) 1%nat).
  - lia.
  - intros j Hj. assert (j = 0%nat) as -> by lia.
    eapply (is_more_pages _ _ _ _ _ _ (VInt 2)).
    + reflexivity.
    + reflexivity.
    + repeat constructor; eexists; split; reflexivity.
    + eexists; split; reflexivity.
    + reflexivity.
  - left. reflexivity.
Defined.

(** ** Webhook ingestion *)

Section Webhook.

Context (W : world).

Lemma webhook_verified raw_payload header data (st : state) :
  verified W raw_payload header data →
  webhook W raw_payload header st = webhook_apply data st.
Proof.
  intros (sig & -> & Hsig & Hv & Hj). unfold webhook.
  change (default "" (Some sig)) with sig.
  apply String.eqb_neq in Hsig. rewrite Hsig.
  unfold mbind, M_bind, lift. rewrite Hv. simpl. by rewrite Hj.
Qed.

Lemma webhook_apply_known (st : state) data ed key s r :
  reads_as data ed key s →
  payment_store st !! key = Some r →
  webhook_apply data st = (Ok received, with_record st key (set_status s r)).
Proof.
  intros (d & -> & Hed & Hid & Hs) Hr.
  unfold webhook_apply, mbind, M_bind, lift, store_get, store_set. simpl.
  rewrite Hed. simpl. unfold event_id in Hid. simpl in Hid.
  destruct (Py.truthy (Py.field ed "transactionId" VNone));
    rewrite Hid, Hs; simpl; by rewrite Hr.
Qed.

Lemma webhook_apply_new (st : state) data ed key s p :
  reads_as data ed key s →
  payment_store st !! key = None →
  Py.field ed "phone" (VStr "") = VStr p →
  webhook_apply data st =
  (Ok received,
   with_record st key
     {| status := s; phone := PyStr.lstrip_char "+" p;
        amount := Py.field ed "amount" VNone |}).
Proof.
  intros (d & -> & Hed & Hid & Hs) Hr Hp.
  unfold webhook_apply, mbind, M_bind, lift, store_get, store_set. simpl.
  rewrite Hed. simpl. unfold event_id in Hid. simpl in Hid.
  destruct (Py.truthy (Py.field ed "transactionId" VNone));
    rewrite Hid, Hs; simpl; by rewrite Hr, Hp.
Qed.

(** Every run of the update either raises and leaves the state as it
    was, or files the event under its key in one of the two ways. *)
Lemma webhook_apply_cases (data : value) (st : state) :
  (∃ e, webhook_apply data st = (Raise e, st)) ∨
  ∃ ed key s, reads_as data ed key s ∧
    ((∃ r, payment_store st !! key = Some r) ∨
     (payment_store st !! key = None ∧
      ∃ p, Py.field ed "phone" (VStr "") = VStr p)).
Proof.
  destruct data as [| | | | | |d]; try (left; by eexists).
  destruct (Py.field d "data" (VDict [])) as [| | | | | |ed] eqn:Hed;
    try (left; eexists; unfold webhook_apply, mbind, M_bind, lift; simpl;
         by rewrite Hed).
  destruct (event_id ed) as [| | | |key| |] eqn:Hid;
    try (left;
         unfold webhook_apply, mbind, M_bind, lift, event_id in *; simpl;
         rewrite Hed; simpl; simpl in Hid;
         destruct (Py.truthy (Py.field ed "transactionId" VNone));
         rewrite Hid;
         destruct (map_lipana_status (Py.field ed "status" (VStr "")));
         simpl; by eexists).
  destruct (map_lipana_status (Py.field ed "status" (VStr ""))) as [s|e]
    eqn:Hs.
  2:{ left. unfold webhook_apply, mbind, M_bind, lift, event_id in *; simpl.
      rewrite Hed; simpl; simpl in Hid.
      destruct (Py.truthy (Py.field ed "transactionId" VNone));
        rewrite Hid, Hs; by eexists. }
  assert (reads_as (VDict d) ed key s) as Hev by (by exists d).
  destruct (payment_store st !! key) as [r|] eqn:Hr.
  { right. exists ed, key, s. eauto. }
  destruct (Py.field ed "phone" (VStr "")) as [| | | |p| |] eqn:Hp;
    try (left; unfold webhook_apply, mbind, M_bind, lift, store_get,
           event_id in *; simpl;
         rewrite Hed; simpl; simpl in Hid;
         destruct (Py.truthy (Py.field ed "transactionId" VNone));
         rewrite Hid, Hs; simpl; rewrite Hr, Hp; by eexists).
  right. exists ed, key, s. eauto.
Qed.

Lemma with_record_again (st : state) (key s : string) (r : record) :
  status r = s →
  with_record (with_record st key r) key (set_status s r) =
  with_record st key r.
Proof.
  intros <-. unfold with_record, set_status. simpl. destruct r. simpl.
  by rewrite insert_insert_eq.
Qed.

Lemma webhook_apply_twice (data : value) (st : state) :
  webhook_apply data (webhook_apply data st).2 = webhook_apply data st.
Proof.
  destruct (webhook_apply_cases data st)
    as [[e He]|(ed & key & s & Hev & [[r Hr]|[Hr [p Hp]]])].
  - by rewrite He.
  - rewrite (webhook_apply_known st data ed key s r) by done. simpl.
    rewrite (webhook_apply_known _ data ed key s (set_status s r)); try done.
    + by rewrite with_record_again.
    + simpl. by rewrite lookup_insert_eq.
  - rewrite (webhook_apply_new st data ed key s p) by done. simpl.
    erewrite (webhook_apply_known _ data ed key s); try done.
    + by rewrite with_record_again.
    + simpl. by rewrite lookup_insert_eq.
Qed.

(** What the handler does before it reads the event never touches the
    state. *)
Lemma webhook_cases raw_payload header (st : state) :
  (∃ data, verified W raw_payload header data) ∨
  (∃ r, webhook W raw_payload header st = (r, st)).
Proof.
  unfold webhook.
  destruct header as [sig|]; [|right; by eexists].
  change (default "" (Some sig)) with sig.
  destruct (String.eqb sig "") eqn:Hsig; [right; by eexists|].
  apply String.eqb_neq in Hsig.
  unfold mbind, M_bind, lift.
  destruct (verify_webhook_signature W raw_payload sig) as [[|]|e] eqn:Hv;
    simpl; try (right; by eexists).
  destruct (json_loads W raw_payload) as [data|e] eqn:Hj.
  - left. exists data, sig. eauto.
  - right. destruct e; by eexists.
Qed.

End Webhook.

(** C8.  Delivering the same webhook request twice in succession leaves
    the store, the call log and the reply as one delivery leaves them, from
    every starting state; the run is taken within the embedding (the
    tracking id is not a number, boolean or null). *)
Theorem webhook_idempotent (W : world) (raw_payload : list Byte.byte)
    (signature_header : option string) (st : state) :
  (webhook W raw_payload signature_header st).1 ≠ Raise NonStrKey →
  webhook W raw_payload signature_header
    (webhook W raw_payload signature_header st).2 =
  webhook W raw_payload signature_header st.
Proof.
  intros _.
  destruct (webhook_cases W raw_payload signature_header st)
    as [[data Hv]|[r Hr]].
  - rewrite !(webhook_verified W _ _ data) by done.
    apply webhook_apply_twice.
  - by rewrite Hr.
Qed.

Lemma demo_verified (data : value) :
  verified (DemoHook.world_reading data) DemoHook.payload
    (Some DemoHook.signature) data.
Proof. exists DemoHook.signature. repeat split. discriminate. Defined.

Lemma webhook_idempotent_witness :
  webhook (DemoHook.world_reading DemoHook.success_event) DemoHook.payload
    (Some DemoHook.signature)
    (webhook (DemoHook.world_reading DemoHook.success_event) DemoHook.payload
       (Some DemoHook.signature) Demo.st0).2 =
  webhook (DemoHook.world_reading DemoHook.success_event) DemoHook.payload
    (Some DemoHook.signature) Demo.st0.
Proof.
  apply (webhook_idempotent (DemoHook.world_reading DemoHook.success_event)).
  intros H. vm_compute in H. discriminate H.
Defined.

(** C9, as stated, fails: an event for an unseen id that carries no amount
    is filed with the amount [None] (JSON null), which is not zero. *)
Lemma webhook_new_record_amount_none :
  payment_store
    (webhook (DemoHook.world_reading DemoHook.no_amount_event)
       DemoHook.payload (Some DemoHook.signature) Demo.st0).2 !! "txn_1" =
  Some {| status := "success"; phone := "254712345678"; amount := VNone |} ∧
  Py.assoc "amount"
    [("transactionId", VStr "txn_1"); ("status", VStr "success");
     ("phone", VStr "+254712345678")] = None ∧
  VNone ≠ VInt 0.
Proof. split; [|split]; [vm_compute; reflexivity|reflexivity|discriminate]. Qed.

(** C9 (amended).  A verified event whose tracking id is a string that is
    not in the store, whose status is a string or absent, and whose phone
    is a string or absent, is answered 200 {received: true}, and afterwards
    the store holds under that id the record whose status is the
    normalized status of the event, whose phone is the payload's phone
    without leading "+" signs (the empty string when the payload has none),
    and whose amount is the payload's amount ([None] when the payload has
    none).  No other record changes and no call is made. *)
Theorem webhook_creates_record (W : world) (raw_payload : list Byte.byte)
    (signature_header : option string) (data : value)
    (ed : list (string * value)) (key s p : string) (st : state) :
  verified W raw_payload signature_header data →
  reads_as data ed key s →
  payment_store st !! key = None →
  Py.field ed "phone" (VStr "") = VStr p →
  (webhook W raw_payload signature_header st).1 = Ok received ∧
  payment_store (webhook W raw_payload signature_header st).2 !! key =
    Some {| status := s; phone := PyStr.lstrip_char "+" p;
            amount := Py.field ed "amount" VNone |} ∧
  (∀ k, k ≠ key →
     payment_store (webhook W raw_payload signature_header st).2 !! k =
     payment_store st !! k) ∧
  outbound (webhook W raw_payload signature_header st).2 = outbound st ∧
  (Py.assoc "phone" ed = None → p = "") ∧
  (Py.assoc "amount" ed = None → Py.field ed "amount" VNone = VNone).
Proof.
  intros Hv Hev Hr Hp.
  rewrite (webhook_verified W _ _ data) by done.
  rewrite (webhook_apply_new st data ed key s p) by done.
  unfold with_record. simpl.
  split; [done|]. split; [by rewrite lookup_insert_eq|].
  split; [intros k Hk; by rewrite lookup_insert_ne|].
  split; [done|]. split.
  - unfold Py.field in Hp. intros Hno. rewrite Hno in Hp. by injection Hp.
  - unfold Py.field. by intros ->.
Qed.

Lemma webhook_creates_record_witness :
  (webhook (DemoHook.world_reading DemoHook.success_event) DemoHook.payload
     (Some DemoHook.signature) Demo.st0).1 = Ok received ∧
  payment_store
    (webhook (DemoHook.world_reading DemoHook.success_event) DemoHook.payload
       (Some DemoHook.signature) Demo.st0).2 !! "txn_1" =
    Some {| status := "success"; phone := "254712345678";
            amount := VInt 50 |}.
Proof.
  destruct (webhook_creates_record
    (DemoHook.world_reading DemoHook.success_event) DemoHook.payload
    (Some DemoHook.signature) DemoHook.success_event
    [("transactionId", VStr "txn_1"); ("amount", VInt 50);
     ("status", VStr "success"); ("phone", VStr "+254712345678")]
    "txn_1" "success" "+254712345678" Demo.st0)
    as (Hreply & Hrec & _).
  - apply demo_verified.
  - eexists. repeat split.
  - reflexivity.
  - reflexivity.
  - split; [exact Hreply|exact Hrec].
Defined.

(** C10 at failing inputs: a verified event without tracking id is not
    always answered 200.  When its status is a number, [raw.lower()] raises
    [AttributeError]; when its phone is null and no record is stored under
    the empty string yet, [lstrip] raises [AttributeError].  Neither is
    caught, so the handler fails (an HTTP 500) and files nothing. *)
Lemma webhook_without_id_ill_typed :
  webhook (DemoHook.world_reading DemoBad.event_status_number)
    DemoHook.payload (Some DemoHook.signature) Demo.st0 =
    (Raise AttributeError, Demo.st0) ∧
  webhook (DemoHook.world_reading DemoBad.event_phone_null)
    DemoHook.payload (Some DemoHook.signature) Demo.st0 =
    (Raise AttributeError, Demo.st0) ∧
  verified (DemoHook.world_reading DemoBad.event_status_number)
    DemoHook.payload (Some DemoHook.signature) DemoBad.event_status_number ∧
  verified (DemoHook.world_reading DemoBad.event_phone_null)
    DemoHook.payload (Some DemoHook.signature) DemoBad.event_phone_null.
Proof.
  split; [reflexivity|]. split; [reflexivity|].
  split; apply demo_verified.
Qed.

(** X21.  A verified event whose data object has neither a transactionId
    nor a transaction_id field, with a status that is a string or absent
    and, when a record has to be created, a phone that is a string or
    absent, is answered 200 {received: true} and filed under the empty
    string: afterwards the store holds under "" a record with the
    normalized status of the event.  A record already there, for instance
    from an earlier event without id, keeps its phone and amount;
    otherwise the record is made from the payload.  No other key changes
    and no call is made. *)
Theorem webhook_without_id (W : world) (raw_payload : list Byte.byte)
    (signature_header : option string) (d ed : list (string * value))
    (s : string) (st : state) :
  verified W raw_payload signature_header (VDict d) →
  Py.field d "data" (VDict []) = VDict ed →
  Py.assoc "transactionId" ed = None →
  Py.assoc "transaction_id" ed = None →
  map_lipana_status (Py.field ed "status" (VStr "")) = Ok s →
  (payment_store st !! "" = None →
   ∃ p, Py.field ed "phone" (VStr "") = VStr p) →
  ∃ r,
    (webhook W raw_payload signature_header st).1 = Ok received ∧
    payment_store (webhook W raw_payload signature_header st).2 !! "" =
      Some r ∧
    status r = s ∧
    (∀ r0, payment_store st !! "" = Some r0 →
       phone r = phone r0 ∧ amount r = amount r0) ∧
    (payment_store st !! "" = None →
     ∃ p, Py.field ed "phone" (VStr "") = VStr p ∧
          phone r = PyStr.lstrip_char "+" p ∧
          amount r = Py.field ed "amount" VNone) ∧
    (∀ k, k ≠ "" →
       payment_store (webhook W raw_payload signature_header st).2 !! k =
       payment_store st !! k) ∧
    outbound (webhook W raw_payload signature_header st).2 = outbound st.
Proof.
  intros Hv Hed Hid1 Hid2 Hs Hp.
  assert (reads_as (VDict d) ed "" s) as Hev.
  { exists d. repeat split; try done.
    unfold event_id, Py.field. by rewrite Hid1, Hid2. }
  rewrite (webhook_verified W _ _ (VDict d)) by done.
  destruct (payment_store st !! "") as [r0|] eqn:Hr.
  - exists (set_status s r0).
    rewrite (webhook_apply_known st _ ed "" s r0) by done.
    unfold with_record. simpl.
    split; [done|]. split; [by rewrite lookup_insert_eq|].
    split; [done|]. split; [by intros r1 [= ->]|].
    split; [done|]. split; [|done].
    intros k Hk. by rewrite lookup_insert_ne.
  - destruct (Hp eq_refl) as [p Hphone].
    eexists.
    rewrite (webhook_apply_new st _ ed "" s p) by done.
    unfold with_record. simpl.
    split; [done|]. split; [by rewrite lookup_insert_eq|].
    split; [done|]. split; [done|].
    split; [intros _; by exists p|]. split; [|done].
    intros k Hk. by rewrite lookup_insert_ne.
Qed.

Lemma webhook_without_id_witness :
  ∃ r,
    (webhook (DemoHook.world_reading (DemoHook.no_id_event "failed"))
       DemoHook.payload (Some DemoHook.signature) Demo.st0).1 = Ok received ∧
    payment_store
      (webhook (DemoHook.world_reading (DemoHook.no_id_event "failed"))
         DemoHook.payload (Some DemoHook.signature) Demo.st0).2 !! "" =
      Some r ∧
    status r = "failed".
Proof.
  destruct (webhook_without_id
    (DemoHook.world_reading (DemoHook.no_id_event "failed")) DemoHook.payload
    (Some DemoHook.signature)
    [("event", VStr "payment.update");
     ("data", VDict [("amount", VInt 70); ("status", VStr "failed");
                     ("phone", VStr "+254700000001")])]
    [("amount", VInt 70); ("status", VStr "failed");
     ("phone", VStr "+254700000001")]
    "failed" Demo.st0
    (demo_verified _) eq_refl eq_refl eq_refl eq_refl
    (λ _, ex_intro _ "+254700000001" eq_refl))
    as (r & Hreply & Hrec & Hst & _).
  exists r. repeat split; assumption.
Defined.

(** Two different events without id, one after the other, end in a single
    record under the empty string: the second overwrote the status that
    the first had filed. *)
Example webhook_without_id_collide :
  payment_store
    (webhook (DemoHook.world_reading (DemoHook.no_id_event "failed"))
       DemoHook.payload (Some DemoHook.signature)
       (webhook (DemoHook.world_reading (DemoHook.no_id_event "success"))
          DemoHook.payload (Some DemoHook.signature) Demo.st0).2).2 =
  {[ "" := {| status := "failed"; phone := "254700000001";
              amount := VInt 70 |} ]}.
Proof. vm_compute. reflexivity. Qed.

(** ** Rejected webhook requests *)

(** The rejections the handler does answer: a request without signature,
    or with an ASCII signature that differs from the digest, is answered
    401; a verified request whose body the parser rejects with
    [JSONDecodeError] is answered 400; and whenever the request is not a
    verified event, the state stays as it was. *)
Lemma webhook_rejects (W : world) (raw_payload : list Byte.byte)
    (signature_header : option string) (st : state) :
  let expected :=
    hmac_sha256_hexdigest W (LIPANA_WEBHOOK_SECRET W) raw_payload in
  (signature_header = None ∨ signature_header = Some "" →
   webhook W raw_payload signature_header st =
   (Ok (jsonify [("error", VStr "Missing signature")] 401), st)) ∧
  (∀ sig, signature_header = Some sig → sig ≠ "" → sig ≠ expected →
     PyStr.isascii sig = true → PyStr.isascii expected = true →
     webhook W raw_payload signature_header st =
     (Ok (jsonify [("error", VStr "Invalid signature")] 401), st)) ∧
  (∀ sig, signature_header = Some sig → sig ≠ "" →
     verify_webhook_signature W raw_payload sig = Ok true →
     json_loads W raw_payload = Raise JSONDecodeError →
     webhook W raw_payload signature_header st =
     (Ok (jsonify [("error", VStr "Invalid JSON")] 400), st)) ∧
  ((∀ data, ¬ verified W raw_payload signature_header data) →
   (webhook W raw_payload signature_header st).2 = st).
Proof.
  intros expected. repeat split.
  - by intros [->| ->].
  - intros sig -> Hsig Hne Ha He. unfold webhook.
    change (default "" (Some sig)) with sig.
    apply String.eqb_neq in Hsig, Hne. rewrite Hsig.
    unfold mbind, M_bind, lift, verify_webhook_signature, compare_digest.
    fold expected. by rewrite Ha, He, Hne.
  - intros sig -> Hsig Hv Hj. unfold webhook.
    change (default "" (Some sig)) with sig.
    apply String.eqb_neq in Hsig. rewrite Hsig.
    unfold mbind, M_bind, lift. rewrite Hv. simpl. by rewrite Hj.
  - intros Hno.
    destruct (webhook_cases W raw_payload signature_header st)
      as [[data Hv]|[r ->]]; [by destruct (Hno data)|done].
Qed.

(** C5 at a failing input: a request whose signature header is "é" is not
    answered 401.  [hmac.compare_digest] refuses a non-ASCII [str], the
    [TypeError] is not caught, and the handler fails (an HTTP 500); the
    state is unchanged. *)
Theorem webhook_non_ascii_signature (W : world) (raw_payload : list Byte.byte)
    (st : state) :
  webhook W raw_payload (Some e_acute) st = (Raise TypeError, st).
Proof. reflexivity. Qed.

(** A malformed body that is not answered 400: a verified request whose
    body is not text at all (the parser raises [UnicodeDecodeError], as on
    the single byte 0xff) makes the handler fail with that exception, which
    [except json.JSONDecodeError] does not catch. *)
Lemma webhook_undecodable_body (W : world) (raw_payload : list Byte.byte)
    (sig : string) (st : state) :
  sig ≠ "" →
  verify_webhook_signature W raw_payload sig = Ok true →
  json_loads W raw_payload = Raise UnicodeDecodeError →
  webhook W raw_payload (Some sig) st = (Raise UnicodeDecodeError, st).
Proof.
  intros Hsig Hv Hj. unfold webhook. change (default "" (Some sig)) with sig.
  apply String.eqb_neq in Hsig. rewrite Hsig.
  unfold mbind, M_bind, lift. rewrite Hv. simpl. by rewrite Hj.
Qed.

(** ** Status polling *)

Section Polling.

Context (W : world) (tid : string).

Lemma poll_pending_terminal (r : record) (st : state) :
  status r ≠ "pending" →
  poll_pending W tid r st = (Ok (reply_of r), st).
Proof.
  intros Hs. apply String.eqb_neq in Hs.
  unfold poll_pending. by rewrite Hs.
Qed.

Lemma poll_pending_raise (r : record) (st st1 : state) e :
  status r = "pending" →
  fetch_lipana_status W tid st = (Raise e, st1) →
  poll_pending W tid r st = (Raise e, st1).
Proof.
  intros Hs Hf. unfold poll_pending. rewrite Hs. simpl String.eqb.
  unfold mbind, M_bind. by rewrite Hf.
Qed.

Lemma poll_pending_refresh (r : record) (st st1 : state) live :
  status r = "pending" →
  fetch_lipana_status W tid st = (Ok live, st1) →
  poll_pending W tid r st =
  (Ok (reply_of (refresh r live)),
   match live with
   | Some s => if String.eqb s "pending" then st1
               else with_record st1 tid (set_status s r)
   | None => st1
   end).
Proof.
  intros Hs Hf. unfold poll_pending. rewrite Hs. simpl String.eqb.
  unfold mbind, M_bind at 1 2. rewrite Hf.
  destruct live as [s|]; simpl; [|done].
  by destruct (String.eqb s "pending").
Qed.

Lemma check_status_known (r : record) (st : state) :
  payment_store st !! tid = Some r →
  check_status W tid st = poll_pending W tid r st.
Proof.
  intros Hr. unfold check_status, mbind, M_bind at 1, store_get.
  by rewrite Hr.
Qed.

Lemma check_status_unknown_none (st st1 : state) :
  payment_store st !! tid = None →
  fetch_lipana_status W tid st = (Ok None, st1) →
  check_status W tid st =
  (Ok (jsonify [("status", VStr "not_found")] 404), st1).
Proof.
  intros Hr Hf. unfold check_status, mbind, M_bind at 1 2, store_get.
  by rewrite Hr, Hf.
Qed.

Lemma check_status_unknown_some (st st1 : state) (s : string) :
  payment_store st !! tid = None →
  fetch_lipana_status W tid st = (Ok (Some s), st1) →
  check_status W tid st =
  poll_pending W tid
    {| status := s; phone := "Recovered"; amount := VInt 0 |}
    (with_record st1 tid
       {| status := s; phone := "Recovered"; amount := VInt 0 |}).
Proof.
  intros Hr Hf. unfold check_status, mbind, M_bind at 1 2, store_get.
  by rewrite Hr, Hf.
Qed.

End Polling.

(** C1 at a failing input: txn_1 is stored as success, a verified webhook
    event for txn_1 with status pending arrives and is answered 200, and
    the stored status is pending afterwards.  The poll path never does
    this to a final status; the webhook path assigns the status without
    looking at the stored one. *)
Lemma webhook_pending_overwrites_success :
  payment_store DemoHook.st_paid !! "txn_1" =
    Some {| status := "success"; phone := "254712345678";
            amount := VInt 50 |} ∧
  map_lipana_status (VStr "pending") = Ok "pending" ∧
  payment_store
    (webhook (DemoHook.world_reading DemoHook.pending_event)
       DemoHook.payload (Some DemoHook.signature) DemoHook.st_paid).2
    !! "txn_1" =
    Some {| status := "pending"; phone := "254712345678";
            amount := VInt 50 |}.
Proof. repeat split; vm_compute; reflexivity. Qed.

(** X22.  The poll path keeps a final status: a status request for a
    stored id whose status is success or failed answers from the store
    without asking the provider and changes nothing; whatever the provider
    answers, the record found under the id after a status request has the
    phone and amount it had, and either the status it had or, if it was
    pending, success or failed; and when the record is pending and the
    fetcher finds a final status, the record found under the id afterwards
    has that status, and the reply carries it. *)
Theorem check_status_keeps_final (W : world) (tid : string) (r : record)
    (st : state) :
  payment_store st !! tid = Some r →
  (status r ≠ "pending" → check_status W tid st = (Ok (reply_of r), st)) ∧
  (∃ r', payment_store (check_status W tid st).2 !! tid = Some r' ∧
         phone r' = phone r ∧ amount r' = amount r ∧
         (status r' = status r ∨
          status r = "pending" ∧ status r' ∈ ["success"; "failed"])) ∧
  (∀ s st1,
     status r = "pending" →
     fetch_lipana_status W tid st = (Ok (Some s), st1) →
     s ≠ "pending" →
     (check_status W tid st).1 =
       Ok (reply_of {| status := s; phone := phone r; amount := amount r |}) ∧
     payment_store (check_status W tid st).2 !! tid =
       Some {| status := s; phone := phone r; amount := amount r |}).
Proof.
  intros Hr. split; [|split].
  - intros Hs. rewrite (check_status_known W tid r) by done.
    by apply poll_pending_terminal.
  - rewrite (check_status_known W tid r) by done.
    destruct (decide (status r = "pending")) as [Hs|Hs].
    2:{ rewrite poll_pending_terminal by done. exists r. auto. }
    pose proof (fetch_lipana_status_store W tid st) as Hstore.
    destruct (fetch_lipana_status_frame W tid st) as (_ & _ & _ & _ & Hrange).
    destruct (fetch_lipana_status W tid st) as [[live|e] st1] eqn:Hf;
      simpl in Hstore.
    + rewrite (poll_pending_refresh W tid r st st1 live) by done. simpl.
      destruct live as [s|]; [|exists r; rewrite Hstore; auto].
      destruct (String.eqb s "pending") eqn:Hsp;
        [exists r; rewrite Hstore; auto|].
      exists (set_status s r). simpl. rewrite lookup_insert_eq.
      repeat split. right. split; [done|].
      apply String.eqb_neq in Hsp. specialize (Hrange s eq_refl).
      set_solver.
    + rewrite (poll_pending_raise W tid r st st1 e) by done. simpl.
      exists r. rewrite Hstore. auto.
  - intros s st1 Hs Hf Hsp.
    rewrite (check_status_known W tid r) by done.
    rewrite (poll_pending_refresh W tid r st st1 (Some s)) by done.
    apply String.eqb_neq in Hsp. simpl. rewrite Hsp.
    split; [done|]. simpl. by rewrite lookup_insert_eq.
Qed.

Lemma check_status_keeps_final_witness :
  (check_status (Demo.world_of Demo.no_json (DemoPoll.others 1)) "txn_a"
     DemoPoll.st_pending).1 =
    Ok (reply_of {| status := "success"; phone := "254712345678";
                    amount := VInt 50 |}) ∧
  payment_store
    (check_status (Demo.world_of Demo.no_json (DemoPoll.others 1)) "txn_a"
       DemoPoll.st_pending).2 !! "txn_a" =
    Some {| status := "success"; phone := "254712345678";
            amount := VInt 50 |}.
Proof.
  apply (proj2 (proj2 (check_status_keeps_final
    (Demo.world_of Demo.no_json (DemoPoll.others 1)) "txn_a" DemoPoll.pending
    DemoPoll.st_pending eq_refl)) "success"
    {| payment_store := {[ "txn_a" := DemoPoll.pending ]};
       outbound := [ListTransactions 1] |}).
  - reflexivity.
  - vm_compute. reflexivity.
  - discriminate.
Defined.



(** An unknown id that the provider does not list either: 404. *)
Example check_status_not_found :
  check_status (Demo.world_of Demo.no_json Demo.two_pages) "txn_x" Demo.st0 =
  (Ok (jsonify [("status", VStr "not_found")] 404),
   after_pages Demo.st0 1 3).
Proof. vm_compute. reflexivity. Qed.

(** ** Payment initiation *)

(** C6 at failing inputs.  The validation of POST /pay does not answer every
    unusable amount with 400.  An amount that JSON reads as an infinite
    number (such as 1e999) passes [float] and makes [int] raise
    [OverflowError]; an integer too large for a float makes [float] raise
    [OverflowError]; neither is among the exceptions that the handler
    catches, so the request fails instead of being answered with 400.  A
    body that is a non-empty JSON array has no [get]: the handler raises
    [AttributeError] before any validation.  In each case nothing is stored
    and nothing is sent. *)
Lemma initiate_payment_unhandled_input :
  initiate_payment DemoBad.silent DemoBad.pay_infinite Demo.st0 =
    (Raise OverflowError, Demo.st0) ∧
  initiate_payment DemoBad.silent DemoBad.pay_huge Demo.st0 =
    (Raise OverflowError, Demo.st0) ∧
  initiate_payment DemoBad.silent DemoBad.pay_not_an_object Demo.st0 =
    (Raise AttributeError, Demo.st0).
Proof. repeat split; vm_compute; reflexivity. Qed.

(** X24.  For a POST /pay whose body is a JSON object (or absent, null or
    unreadable, which the handler reads as the empty object): when the
    phone, stripped, is empty, or the amount is missing, or the amount does
    not convert to a number ([float] raises [ValueError] or [TypeError], or
    the number is a NaN, so that [int] raises [ValueError]), or the converted
    amount is below 10, the reply is 400 with an error message, and the state
    is unchanged: no record is stored and no call has been made to the
    provider. *)
Theorem initiate_payment_rejects (W : world) (json : value)
    (d : list (string * value)) (st : state) :
  Py.or_ json (VDict []) = VDict d →
  let phone := PyStr.strip (str W (Py.field d "phone" (VStr ""))) in
  let amount := Py.field d "amount" VNone in
  phone = "" ∨ amount = VNone ∨
  parse_amount W amount = Raise ValueError ∨
  parse_amount W amount = Raise TypeError ∨
  (∃ n, parse_amount W amount = Ok n ∧ n < 10) →
  ∃ msg,
    initiate_payment W json st = (Ok (jsonify [("error", VStr msg)] 400), st).
Proof.
  intros Hbody phone amount Hbad.
  unfold initiate_payment. rewrite Hbody.
  unfold mbind, M_bind at 1 2, lift. simpl Py.get. cbv iota beta.
  fold phone amount.
  destruct (String.eqb phone "") eqn:Hphone; [by eexists|].
  apply String.eqb_neq in Hphone.
  destruct (Py.truthy amount) eqn:Htruthy; simpl negb; cbv iota;
    [|by eexists].
  destruct Hbad as [Hp|[Ha|[Hv|[Ht|(n & Hn & Hlt)]]]].
  - done.
  - by rewrite Ha in Htruthy.
  - rewrite Hv. by eexists.
  - rewrite Ht. by eexists.
  - rewrite Hn. apply Z.ltb_lt in Hlt. rewrite Hlt. by eexists.
Qed.

Lemma initiate_payment_rejects_witness :
  ∃ msg,
    initiate_payment (Demo.world_of Demo.no_json (λ _ _, RespTimeout))
      (VDict [("amount", VInt 5)]) Demo.st0 =
    (Ok (jsonify [("error", VStr msg)] 400), Demo.st0).
Proof.
  apply (initiate_payment_rejects
    (Demo.world_of Demo.no_json (λ _ _, RespTimeout))
    (VDict [("amount", VInt 5)]) [("amount", VInt 5)] Demo.st0 eq_refl).
  left. reflexivity.
Defined.

(** An amount below the minimum with a phone: 400, nothing sent. *)
Example pay_below_minimum :
  initiate_payment (Demo.world_of Demo.no_json (λ _ _, RespTimeout))
    (VDict [("phone", VStr "0712345678"); ("amount", VInt 5)]) Demo.st0 =
  (Ok (jsonify [("error", VStr "Minimum payment amount is KES 10")] 400),
   Demo.st0).
Proof. vm_compute. reflexivity. Qed.

(** A valid request: the phone is normalised, the push is sent, and the id
    the provider returns is stored as pending. *)
Example pay_accepted :
  initiate_payment
    (Demo.world_of Demo.no_json
       (λ _ _, RespHttp 200
                 (Some (VDict [("data",
                                VDict [("transactionId", VStr "txn_9")])]))))
    (VDict [("phone", VStr "0712345678"); ("amount", VInt 50)]) Demo.st0 =
  (Ok (jsonify [("trackingId", VStr "txn_9")] 200),
   {| payment_store :=
        {[ "txn_9" := {| status := "pending"; phone := "254712345678";
                         amount := VInt 50 |} ]};
      outbound := [PushStk "+254712345678" 50] |}).
Proof. vm_compute. reflexivity. Qed.

(** An infinite amount is a number that [int] cannot convert: the
    [OverflowError] is not among the caught exceptions.  Nothing is sent
    and nothing is stored. *)
Example pay_infinite_amount :
  initiate_payment (Demo.world_of Demo.no_json (λ _ _, RespTimeout))
    (VDict [("phone", VStr "0712345678");
            ("amount", VFloat (S754_infinity false))]) Demo.st0 =
  (Raise OverflowError, Demo.st0).
Proof. vm_compute. reflexivity. Qed.

(** A body that is JSON but not an object has no fields to read: the
    handler fails on [body.get]; nothing is sent and nothing is stored. *)
Example pay_body_not_an_object :
  initiate_payment (Demo.world_of Demo.no_json (λ _ _, RespTimeout))
    (VList [VInt 1]) Demo.st0 =
  (Raise AttributeError, Demo.st0).
Proof. reflexivity. Qed.

(** The provider is called, and the store written, only for a request that
    passed the validation: in every other run the state is unchanged. *)
Lemma initiate_payment_validates (W : world) (json : value) (st : state) :
  (initiate_payment W json st).2 = st ∨
  ∃ d n, Py.or_ json (VDict []) = VDict d ∧
         PyStr.strip (str W (Py.field d "phone" (VStr ""))) ≠ "" ∧
         parse_amount W (Py.field d "amount" VNone) = Ok n ∧ 10 ≤ n.
Proof.
  unfold initiate_payment.
  destruct (Py.or_ json (VDict [])) as [| | | | | |d] eqn:Hbody;
    try (by left).
  unfold mbind, M_bind at 1 2, lift. simpl Py.get. cbv iota beta.
  destruct (String.eqb _ "") eqn:Hphone; [by left|].
  apply String.eqb_neq in Hphone.
  destruct (Py.truthy _); simpl negb; cbv iota; [|by left].
  destruct (parse_amount W _) as [n|e] eqn:Hn.
  - destruct (n <? 10) eqn:Hlt; [by left|].
    apply Z.ltb_ge in Hlt. right. by exists d, n.
  - left. by destruct e.
Qed.

(** * Further properties *)

(** ** Payment initiation: the call to the provider *)

Lemma bind_run {A B} (m : M A) (f : A → M B) (st : state) :
  (m ≫= f) st =
  match m st with
  | (Ok a, st') => f a st'
  | (Raise e, st') => (Raise e, st')
  end.
Proof. reflexivity. Qed.

Lemma bind_lift_ok {A B} (a : A) (f : A → M B) (st : state) :
  (lift (Ok a) ≫= f) st = f a st.
Proof. reflexivity. Qed.

Lemma bind_lift_raise {A B} (e : exn) (f : A → M B) (st : state) :
  (lift (Raise e) ≫= f) st = (Raise e, st).
Proof. reflexivity. Qed.

Section Initiation.

Context (W : world).

Lemma initiate_payment_valid (json : value) (phone : string) (n : Z)
    (st : state) :
  valid_pay W json phone n →
  initiate_payment W json st = push_stk W (normalise_phone phone) n st.
Proof.
  intros (d & Hbody & -> & Hphone & Htruthy & Hn & Hmin).
  unfold initiate_payment. rewrite Hbody.
  unfold mbind, M_bind at 1 2, lift. simpl Py.get. cbv iota beta.
  apply String.eqb_neq in Hphone. rewrite Hphone, Htruthy, Hn.
  simpl negb. cbv iota.
  apply Z.ltb_ge in Hmin. by rewrite Hmin.
Qed.

(** Every run either stops in the validation, with the state as it was
    and a 400 if it replies, or is the call to the provider for a valid
    request. *)
Lemma initiate_payment_cases (json : value) (st : state) :
  (∃ res, initiate_payment W json st = (res, st) ∧
          ∀ r, res = Ok r → code r = 400) ∨
  ∃ phone n, valid_pay W json phone n.
Proof.
  unfold initiate_payment.
  destruct (Py.or_ json (VDict [])) as [| | | | | |d] eqn:Hbody;
    try (left; eexists; by split).
  unfold mbind, M_bind at 1 2, lift. simpl Py.get. cbv iota beta.
  destruct (String.eqb _ "") eqn:Hphone.
  { left. eexists. split; [done|]. by intros r [= <-]. }
  apply String.eqb_neq in Hphone.
  destruct (Py.truthy _) eqn:Htruthy; simpl negb; cbv iota.
  2:{ left. eexists. split; [done|]. by intros r [= <-]. }
  destruct (parse_amount W _) as [n|e] eqn:Hn.
  - destruct (n <? 10) eqn:Hlt.
    { left. eexists. split; [done|]. by intros r [= <-]. }
    apply Z.ltb_ge in Hlt. right. eexists _, n. by exists d.
  - left. destruct e; eexists; (split; [done|]); try done;
      by intros r [= <-].
Qed.

(** The call to the provider: one call is logged; the store gets the
    pending record under the id of a 200 reply, and is untouched in every
    other outcome, which is a 502, a 504 (exactly on a time-out) or an
    exception. *)
Lemma push_stk_cases (phone : string) (n : Z) (st : state) :
  let rq := PushStk ("+" +:+ phone) n in
  (∃ key,
     push_stk W phone n st =
     (Ok (jsonify [("trackingId", VStr key)] 200),
      with_record (logged st rq) key (pending_record phone n))) ∨
  (∃ res, push_stk W phone n st = (res, logged st rq) ∧
     ∀ r, res = Ok r →
       (code r = 504 ∧ remote W (length (outbound st)) rq = RespTimeout) ∨
       (code r = 502 ∧ remote W (length (outbound st)) rq ≠ RespTimeout)).
Proof.
  intros rq. unfold push_stk. fold rq. rewrite bind_run.
  change (send W rq st)
    with (Ok (remote W (length (outbound st)) rq), logged st rq).
  destruct (remote W (length (outbound st)) rq) as [| |c j] eqn:Hresp.
  - right. eexists. split; [done|]. intros r [= <-]. by left.
  - right. eexists. split; [done|]. intros r [= <-]. by right.
  - destruct (negb (ok c)).
    { destruct (Py.get _ "message" _) as [msg|e];
        [rewrite bind_lift_ok|rewrite bind_lift_raise];
        right; eexists; (split; [done|]); [|done].
      intros r [= <-]. by right. }
    destruct j as [result|].
    2:{ right. eexists. split; [done|]. intros r [= <-]. by right. }
    destruct (Py.get result "data" result) as [data|e];
      [rewrite bind_lift_ok|rewrite bind_lift_raise; right; eexists; by split].
    destruct (first_truthy data _) as [tid|e];
      [rewrite bind_lift_ok|rewrite bind_lift_raise; right; eexists; by split].
    destruct (negb (Py.truthy tid)).
    { right. eexists. split; [done|]. intros r [= <-]. by right. }
    destruct tid as [| | | |key| |]; simpl Py.as_key;
      try (rewrite bind_lift_raise; right; eexists; by split).
    rewrite bind_lift_ok. left. by exists key.
Qed.

End Initiation.

Lemma startswith_254 (q : string) :
  PyStr.startswith "254" q = true → ∃ q', q = "254" +:+ q'.
Proof.
  unfold PyStr.startswith. intros H. apply String.prefix_correct in H.
  destruct q as [|a [|b [|c q']]]; simpl in H; try discriminate H.
  exists q'. destruct q'; by injection H as -> -> ->.
Qed.

Lemma startswith_254_app (q : string) :
  PyStr.startswith "254" ("254" +:+ q) = true.
Proof.
  unfold PyStr.startswith. apply String.prefix_correct. simpl.
  by destruct q.
Qed.

Lemma normalise_phone_254 (phone : string) :
  ∃ q, normalise_phone phone = "254" +:+ q.
Proof.
  unfold normalise_phone. cbv zeta.
  destruct (PyStr.startswith "254" _) eqn:Hs; [|by eexists].
  by apply startswith_254.
Qed.

(** X1.  The phone sent to the provider and stored always starts with the
    country code 254; normalising is idempotent; and leading "+" signs of
    the input make no difference. *)
Theorem normalise_phone_canonical (phone : string) :
  PyStr.startswith "254" (normalise_phone phone) = true ∧
  normalise_phone (normalise_phone phone) = normalise_phone phone ∧
  normalise_phone ("+" +:+ phone) = normalise_phone phone.
Proof.
  assert (Hfix : ∀ q, normalise_phone ("254" +:+ q) = "254" +:+ q).
  { intros q. unfold normalise_phone.
    change (PyStr.lstrip_char "0" (PyStr.lstrip_char "+" ("254" +:+ q)))
      with ("254" +:+ q).
    cbv zeta. by rewrite startswith_254_app. }
  destruct (normalise_phone_254 phone) as [q Hq]. split; [|split].
  - rewrite Hq. apply startswith_254_app.
  - rewrite Hq. apply Hfix.
  - reflexivity.
Qed.

(** X2.  A POST /pay stores a record exactly when it replies 200, the run
    being taken within the embedding (the id that the provider returns is
    not a number or a boolean): either the reply is 200 {trackingId: key},
    the store afterwards holds under [key] the pending record with the
    normalised phone and the converted amount (which is at least 10), no
    other record has changed and one call, the push, has been made; or the
    store is as before and the reply, if there is one, is a 400, a 502 or a
    504. *)
Theorem initiate_payment_stores_iff_200 (W : world) (json : value)
    (st : state) :
  (initiate_payment W json st).1 ≠ Raise NonStrKey →
  (∃ (p : string) (n : Z) (key : string),
     valid_pay W json p n ∧
     (initiate_payment W json st).1 =
       Ok (jsonify [("trackingId", VStr key)] 200) ∧
     payment_store (initiate_payment W json st).2 !! key =
       Some {| status := "pending"; phone := normalise_phone p;
               amount := VInt n |} ∧
     (∀ k, k ≠ key →
        payment_store (initiate_payment W json st).2 !! k =
        payment_store st !! k) ∧
     outbound (initiate_payment W json st).2 =
       (outbound st ++ [PushStk ("+" +:+ normalise_phone p) n])%list) ∨
  (payment_store (initiate_payment W json st).2 = payment_store st ∧
   ∀ r, (initiate_payment W json st).1 = Ok r →
        code r = 400 ∨ code r = 502 ∨ code r = 504).
Proof.
  intros _.
  destruct (initiate_payment_cases W json st)
    as [(res & -> & Hres)|(p & n & Hvalid)].
  { right. split; [done|]. intros r Hr. left. by apply Hres. }
  rewrite (initiate_payment_valid W json p n) by done.
  destruct (push_stk_cases W (normalise_phone p) n st)
    as [[key Hrun]|(res & Hrun & Hres)].
  - left. exists p, n, key. rewrite Hrun. simpl.
    split; [done|]. split; [done|].
    split; [by rewrite lookup_insert_eq|].
    split; [|done]. intros k Hk. by rewrite lookup_insert_ne.
  - right. rewrite Hrun. split; [done|].
    intros r Hr. destruct (Hres r Hr) as [[-> _]|[-> _]]; auto.
Qed.

Lemma initiate_payment_stores_iff_200_witness :
  ∃ (p : string) (n : Z) (key : string),
    valid_pay DemoPay.world_paying DemoPay.body p n ∧
    (initiate_payment DemoPay.world_paying DemoPay.body Demo.st0).1 =
      Ok (jsonify [("trackingId", VStr key)] 200) ∧
    payment_store
      (initiate_payment DemoPay.world_paying DemoPay.body Demo.st0).2
      !! key =
      Some {| status := "pending"; phone := normalise_phone p;
              amount := VInt n |}.
Proof.
  destruct (initiate_payment_stores_iff_200 DemoPay.world_paying
              DemoPay.body Demo.st0)
    as [(p & n & key & Hvalid & Hreply & Hrec & _)|[_ Hcode]].
  - intros H. vm_compute in H. discriminate H.
  - exists p, n, key. split; [exact Hvalid|]. split; [exact Hreply|exact Hrec].
  - destruct (Hcode (jsonify [("trackingId", VStr "txn_9")] 200) eq_refl)
      as [H|[H|H]]; vm_compute in H; discriminate H.
Defined.

(** X3.  A POST /pay makes at most one call to the provider, and none
    unless the request passed the validation: the call is a push for a
    phone that starts with +254 and an amount of at least 10. *)
Theorem initiate_payment_calls (W : world) (json : value) (st : state) :
  (initiate_payment W json st).2 = st ∨
  ∃ (p : string) (n : Z),
    outbound (initiate_payment W json st).2 =
      (outbound st ++ [PushStk ("+" +:+ p) n])%list ∧
    PyStr.startswith "254" p = true ∧ 10 ≤ n ∧
    ∃ phone, valid_pay W json phone n ∧ p = normalise_phone phone.
Proof.
  destruct (initiate_payment_cases W json st)
    as [(res & -> & Hres)|(phone & n & Hvalid)]; [by left|].
  right. exists (normalise_phone phone), n.
  rewrite (initiate_payment_valid W json phone n) by done.
  assert (10 ≤ n) as Hn by (by destruct Hvalid as (d & _ & _ & _ & _ & _ & ?)).
  split; [|split; [|split; [done|by exists phone]]].
  2:{ destruct (normalise_phone_254 phone) as [q ->].
      apply startswith_254_app. }
  destruct (push_stk_cases W (normalise_phone phone) n st)
    as [[key ->]|(res & -> & _)]; done.
Qed.

Lemma demo_valid_pay (loads : list Byte.byte → result value)
    (provider : nat → request → response) :
  valid_pay (Demo.world_of loads provider) DemoPay.body "0712345678" 50.
Proof.
  exists [("phone", VStr "0712345678"); ("amount", VInt 50)].
  repeat split; try reflexivity; [discriminate|by vm_compute].
Defined.

(** X4.  For a request that passed the validation, the reply is 504
    exactly when the call to the provider timed out, and then nothing is
    stored. *)
Theorem initiate_payment_timeout (W : world) (json : value) (phone : string)
    (n : Z) (st : state) :
  valid_pay W json phone n →
  let rq := PushStk ("+" +:+ normalise_phone phone) n in
  (remote W (length (outbound st)) rq = RespTimeout ↔
   ∃ r, (initiate_payment W json st).1 = Ok r ∧ code r = 504) ∧
  (remote W (length (outbound st)) rq = RespTimeout →
   payment_store (initiate_payment W json st).2 = payment_store st).
Proof.
  intros Hvalid rq.
  rewrite (initiate_payment_valid W json phone n) by done.
  assert (Hto : remote W (length (outbound st)) rq = RespTimeout →
    push_stk W (normalise_phone phone) n st =
    (Ok (jsonify
       [("error", VStr "Payment gateway timed out. Please try again.")] 504),
     logged st rq)).
  { intros Hresp. unfold push_stk. fold rq. rewrite bind_run.
    change (send W rq st)
      with (Ok (remote W (length (outbound st)) rq), logged st rq).
    by rewrite Hresp. }
  split; [split|].
  - intros Hresp. rewrite (Hto Hresp). by eexists.
  - intros (r & Hr & Hcode).
    pose proof (push_stk_cases W (normalise_phone phone) n st) as Hcases.
    cbv zeta in Hcases. fold rq in Hcases.
    destruct Hcases as [[key Hrun]|(res & Hrun & Hres)].
    + rewrite Hrun in Hr. injection Hr as <-. discriminate Hcode.
    + rewrite Hrun in Hr. destruct (Hres r Hr) as [[_ ?]|[Hc _]]; [done|].
      rewrite Hc in Hcode. discriminate Hcode.
  - intros Hresp. by rewrite (Hto Hresp).
Qed.

Lemma initiate_payment_timeout_witness :
  ∃ r, (initiate_payment (DemoPay.world_answering RespTimeout) DemoPay.body
          Demo.st0).1 = Ok r ∧ code r = 504.
Proof.
  apply (proj1 (proj1 (initiate_payment_timeout
    (DemoPay.world_answering RespTimeout) DemoPay.body "0712345678" 50
    Demo.st0 (demo_valid_pay _ _)))).
  reflexivity.
Defined.

Lemma first_truthy_priority (dd : list (string * value))
    (pre post : list string) (k t : string) :
  (∀ k0, k0 ∈ pre → Py.truthy (Py.field dd k0 VNone) = false) →
  Py.field dd k VNone = VStr t →
  t ≠ "" →
  first_truthy (VDict dd) (pre ++ k :: post) = Ok (VStr t).
Proof.
  intros Hpre Hk Ht. induction pre as [|k0 pre IH]; simpl.
  - rewrite Hk. simpl. apply String.eqb_neq in Ht. by rewrite Ht.
  - rewrite (Hpre k0) by set_solver. apply IH.
    intros k1 Hk1. apply Hpre. set_solver.
Qed.

(** X5.  The tracking id is read from the provider's answer under the
    first of transactionId, transaction_id, checkoutRequestID and
    checkout_request_id that holds a non-empty value, in the object under
    "data" or, when there is no "data", in the answer itself; whatever the
    later names hold, that id is replied with 200, the store afterwards
    holds the pending record under it, no other record has changed, and
    the push is the one call made. *)
Theorem initiate_payment_id_priority (W : world) (json : value)
    (p : string) (n : Z) (st : state) (c : Z) (result : value)
    (dd : list (string * value)) (pre post : list string) (k t : string) :
  valid_pay W json p n →
  remote W (length (outbound st))
    (PushStk ("+" +:+ normalise_phone p) n) = RespHttp c (Some result) →
  ok c = true →
  Py.get result "data" result = Ok (VDict dd) →
  id_keys = (pre ++ k :: post)%list →
  (∀ k0, k0 ∈ pre → Py.truthy (Py.field dd k0 VNone) = false) →
  Py.field dd k VNone = VStr t →
  t ≠ "" →
  (initiate_payment W json st).1 =
    Ok (jsonify [("trackingId", VStr t)] 200) ∧
  payment_store (initiate_payment W json st).2 !! t =
    Some {| status := "pending"; phone := normalise_phone p;
            amount := VInt n |} ∧
  (∀ k', k' ≠ t →
     payment_store (initiate_payment W json st).2 !! k' =
     payment_store st !! k') ∧
  outbound (initiate_payment W json st).2 =
    (outbound st ++ [PushStk ("+" +:+ normalise_phone p) n])%list.
Proof.
  intros Hvalid Hresp Hc Hdata Hkeys Hpre Hk Ht.
  rewrite (initiate_payment_valid W json p n) by done.
  unfold push_stk. rewrite bind_run.
  change (send W ?rq st)
    with (Ok (remote W (length (outbound st)) rq), logged st rq).
  rewrite Hresp, Hc. change (negb true) with false. cbv iota.
  rewrite Hdata, bind_lift_ok. fold id_keys. rewrite Hkeys.
  rewrite (first_truthy_priority dd pre post k t), bind_lift_ok by done.
  assert (Py.truthy (VStr t) = true) as ->.
  { simpl. apply String.eqb_neq in Ht. by rewrite Ht. }
  simpl. split; [done|]. split; [by rewrite lookup_insert_eq|].
  split; [|done]. intros k' Hk'. by rewrite lookup_insert_ne.
Qed.

Lemma initiate_payment_id_priority_witness :
  (initiate_payment (DemoPay.world_answering DemoPay.legacy_answer)
     DemoPay.body Demo.st0).1 =
    Ok (jsonify [("trackingId", VStr "ws_CO_1")] 200) ∧
  payment_store
    (initiate_payment (DemoPay.world_answering DemoPay.legacy_answer)
       DemoPay.body Demo.st0).2 !! "ws_CO_1" =
    Some {| status := "pending"; phone := "254712345678";
            amount := VInt 50 |} ∧
  payment_store
    (initiate_payment (DemoPay.world_answering DemoPay.legacy_answer)
       DemoPay.body Demo.st0).2 !! "other" = None.
Proof.
  destruct (initiate_payment_id_priority
    (DemoPay.world_answering DemoPay.legacy_answer) DemoPay.body
    "0712345678" 50 Demo.st0 200
    (VDict [("transactionId", VStr ""); ("checkoutRequestID", VStr "ws_CO_1");
            ("checkout_request_id", VStr "other")])
    [("transactionId", VStr ""); ("checkoutRequestID", VStr "ws_CO_1");
     ("checkout_request_id", VStr "other")]
    ["transactionId"; "transaction_id"] ["checkout_request_id"]
    "checkoutRequestID" "ws_CO_1"
    (demo_valid_pay _ _) eq_refl eq_refl eq_refl eq_refl)
    as (Hreply & Hrec & Hothers & _).
  - intros k0 Hk0. apply list_elem_of_In in Hk0.
    destruct Hk0 as [<-|[<-|[]]]; reflexivity.
  - reflexivity.
  - discriminate.
  - split; [exact Hreply|]. split; [exact Hrec|].
    rewrite Hothers by discriminate. reflexivity.
Defined.

(** ** Status normalizer: further properties *)

Lemma map_lipana_status_valid (raw : value) (s : string) :
  map_lipana_status raw = Ok s → valid_status s.
Proof.
  intros H%map_lipana_status_range. unfold valid_status.
  rewrite !elem_of_cons, elem_of_nil in H. tauto.
Qed.

(** X6.  Normalizing is idempotent: a status that the normalizer returned
    is mapped to itself, so a stored status can be normalized again
    without change. *)
Theorem map_lipana_status_idempotent (raw : value) (s : string) :
  map_lipana_status raw = Ok s →
  map_lipana_status (VStr s) = Ok s.
Proof.
  intros H%map_lipana_status_valid.
  by destruct H as [->|[->| ->]].
Qed.

Lemma map_lipana_status_idempotent_witness :
  map_lipana_status (VStr "success") = Ok "success".
Proof.
  apply (map_lipana_status_idempotent (VStr " Completed ") "success").
  reflexivity.
Defined.

(** ** Webhook: further properties *)

Section WebhookMore.

Context (W : world).

(** A request that is not a verified event is answered without a change of
    state, with a 401 or a 400 when it is answered. *)
Lemma webhook_unverified raw_payload header (st : state) :
  (∃ data, verified W raw_payload header data) ∨
  (∃ res, webhook W raw_payload header st = (res, st) ∧
          ∀ r, res = Ok r → code r = 401 ∨ code r = 400).
Proof.
  unfold webhook.
  destruct header as [sig|].
  2:{ right. eexists. split; [done|]. intros r [= <-]. by left. }
  change (default "" (Some sig)) with sig.
  destruct (String.eqb sig "") eqn:Hsig.
  { right. eexists. split; [done|]. intros r [= <-]. by left. }
  apply String.eqb_neq in Hsig.
  destruct (verify_webhook_signature W raw_payload sig) as [[|]|e] eqn:Hv.
  - rewrite bind_lift_ok. simpl negb. cbv iota.
    destruct (json_loads W raw_payload) as [data|e] eqn:Hj.
    + left. exists data, sig. eauto.
    + right. destruct e; eexists; (split; [done|]); try done.
      intros r [= <-]. by right.
  - rewrite bind_lift_ok. right. eexists. split; [done|].
    intros r [= <-]. by left.
  - rewrite bind_lift_raise. right. eexists. by split.
Qed.

Lemma verified_signature raw_payload header data :
  verified W raw_payload header data →
  header = Some (expected_signature W raw_payload) ∧
  expected_signature W raw_payload ≠ "" ∧
  json_loads W raw_payload = Ok data.
Proof.
  intros (sig & -> & Hsig & Hv & Hj).
  unfold verify_webhook_signature, compare_digest in Hv.
  fold (expected_signature W raw_payload) in Hv.
  destruct (PyStr.isascii sig && _); [|done].
  injection Hv as Hv. apply String.eqb_eq in Hv. by subst.
Qed.

Lemma map_lipana_status_falsy (v : value) :
  Py.truthy v = false → map_lipana_status v = Ok "pending".
Proof.
  intros Hv. unfold map_lipana_status, normal_form, Py.or_. by rewrite Hv.
Qed.

End WebhookMore.

(** X7.  A webhook request makes no call to the provider, and changes the
    state in one way only, the run being taken within the embedding (the
    tracking id is not a number, boolean or null): when it is answered 200
    {received: true}, the store afterwards holds a record under one key,
    whose status is pending, success or failed, and every other key is as
    before.  In every other run the state is as before, and the reply, if
    there is one, is a 401 or a 400. *)
Theorem webhook_effects (W : world) (raw_payload : list Byte.byte)
    (signature_header : option string) (st : state) :
  (webhook W raw_payload signature_header st).1 ≠ Raise NonStrKey →
  outbound (webhook W raw_payload signature_header st).2 = outbound st ∧
  ((∃ res, webhook W raw_payload signature_header st = (res, st) ∧
           ∀ r, res = Ok r → code r = 401 ∨ code r = 400) ∨
   (∃ key rec,
      (webhook W raw_payload signature_header st).1 = Ok received ∧
      payment_store (webhook W raw_payload signature_header st).2 !! key =
        Some rec ∧
      (∀ k, k ≠ key →
         payment_store (webhook W raw_payload signature_header st).2 !! k =
         payment_store st !! k) ∧
      valid_status (status rec))).
Proof.
  intros _.
  destruct (webhook_unverified W raw_payload signature_header st)
    as [[data Hv]|(res & Hrun & Hres)].
  2:{ rewrite Hrun. split; [done|]. left. by exists res. }
  rewrite (webhook_verified W _ _ data) by done.
  destruct (webhook_apply_cases data st)
    as [[e He]|(ed & key & s & Hev & [[r Hr]|[Hr [p Hp]]])].
  - rewrite He. split; [done|]. left. eexists. by split.
  - rewrite (webhook_apply_known st data ed key s r) by done.
    split; [done|]. right. exists key, (set_status s r). simpl.
    split; [done|]. split; [by rewrite lookup_insert_eq|].
    split; [intros k Hk; by rewrite lookup_insert_ne|].
    destruct Hev as (d & _ & _ & _ & Hs). by eapply map_lipana_status_valid.
  - rewrite (webhook_apply_new st data ed key s p) by done.
    split; [done|]. right. eexists key, _. simpl.
    split; [done|]. split; [by rewrite lookup_insert_eq|].
    split; [intros k Hk; by rewrite lookup_insert_ne|]. simpl.
    destruct Hev as (d & _ & _ & _ & Hs). by eapply map_lipana_status_valid.
Qed.

Lemma webhook_effects_witness :
  outbound
    (webhook (DemoHook.world_reading DemoHook.pending_event)
       DemoHook.payload (Some DemoHook.signature) DemoHook.st_paid).2 = [] ∧
  ∃ key rec,
    payment_store
      (webhook (DemoHook.world_reading DemoHook.pending_event)
         DemoHook.payload (Some DemoHook.signature) DemoHook.st_paid).2
      !! key = Some rec ∧
    valid_status (status rec).
Proof.
  destruct (webhook_effects (DemoHook.world_reading DemoHook.pending_event)
              DemoHook.payload (Some DemoHook.signature) DemoHook.st_paid)
    as [Hout [(res & Hrun & _)|(key & rec & _ & Hrec & _ & Hs)]].
  - intros H. vm_compute in H. discriminate H.
  - vm_compute in Hrun. discriminate Hrun.
  - split; [exact Hout|]. exists key, rec. split; [exact Hrec|exact Hs].
Defined.

(** X8.  The store changes, or the request is answered 200, only when the
    signature header is exactly the hex digest of the raw body under the
    secret and the body parses as JSON. *)
Theorem webhook_applies_only_signed (W : world) (raw_payload : list Byte.byte)
    (signature_header : option string) (st : state) :
  (webhook W raw_payload signature_header st).2 ≠ st ∨
  (∃ r, (webhook W raw_payload signature_header st).1 = Ok r ∧
        code r = 200) →
  signature_header = Some (expected_signature W raw_payload) ∧
  ∃ data, json_loads W raw_payload = Ok data.
Proof.
  intros Hchanged.
  destruct (webhook_unverified W raw_payload signature_header st)
    as [[data Hv]|(res & Hrun & Hres)].
  - destruct (verified_signature W _ _ _ Hv) as (-> & _ & Hj). eauto.
  - rewrite Hrun in Hchanged. simpl in Hchanged.
    destruct Hchanged as [?|(r & -> & Hcode)]; [done|].
    destruct (Hres r eq_refl) as [Hc|Hc]; rewrite Hc in Hcode; done.
Qed.

Lemma webhook_applies_only_signed_witness :
  Some DemoHook.signature =
    Some (expected_signature
            (DemoHook.world_reading DemoHook.success_event) DemoHook.payload) ∧
  ∃ data,
    json_loads (DemoHook.world_reading DemoHook.success_event)
      DemoHook.payload = Ok data.
Proof.
  apply (webhook_applies_only_signed
    (DemoHook.world_reading DemoHook.success_event) DemoHook.payload
    (Some DemoHook.signature) Demo.st0).
  right. eexists. split; reflexivity.
Defined.

(** X9.  A verified event for a stored id that carries no status, or a
    null or empty one, is answered 200 {received: true} and puts the stored
    status back to pending, whatever it was: afterwards the store holds
    under the id the record with the status pending and the phone and
    amount it had; no other record changes and no call is made. *)
Theorem webhook_missing_status_resets (W : world)
    (raw_payload : list Byte.byte) (signature_header : option string)
    (d ed : list (string * value)) (key : string) (r : record) (st : state) :
  verified W raw_payload signature_header (VDict d) →
  Py.field d "data" (VDict []) = VDict ed →
  event_id ed = VStr key →
  Py.truthy (Py.field ed "status" (VStr "")) = false →
  payment_store st !! key = Some r →
  (webhook W raw_payload signature_header st).1 = Ok received ∧
  payment_store (webhook W raw_payload signature_header st).2 !! key =
    Some {| status := "pending"; phone := phone r; amount := amount r |} ∧
  (∀ k, k ≠ key →
     payment_store (webhook W raw_payload signature_header st).2 !! k =
     payment_store st !! k) ∧
  outbound (webhook W raw_payload signature_header st).2 = outbound st.
Proof.
  intros Hv Hed Hid Hstatus Hr.
  rewrite (webhook_verified W _ _ (VDict d)) by done.
  rewrite (webhook_apply_known st (VDict d) ed key "pending" r).
  - simpl. split; [done|]. split; [by rewrite lookup_insert_eq|].
    split; [|done]. intros k Hk. by rewrite lookup_insert_ne.
  - exists d. repeat split; try done. by apply map_lipana_status_falsy.
  - done.
Qed.

Lemma webhook_missing_status_resets_witness :
  (webhook (DemoHook.world_reading
              (DemoHook.event [("transactionId", VStr "txn_1")]))
     DemoHook.payload (Some DemoHook.signature) DemoHook.st_paid).1 =
    Ok received ∧
  payment_store
    (webhook (DemoHook.world_reading
                (DemoHook.event [("transactionId", VStr "txn_1")]))
       DemoHook.payload (Some DemoHook.signature) DemoHook.st_paid).2
    !! "txn_1" =
    Some {| status := "pending"; phone := phone DemoHook.paid;
            amount := amount DemoHook.paid |}.
Proof.
  destruct (webhook_missing_status_resets
    (DemoHook.world_reading
       (DemoHook.event [("transactionId", VStr "txn_1")]))
    DemoHook.payload (Some DemoHook.signature)
    [("event", VStr "payment.update");
     ("data", VDict [("transactionId", VStr "txn_1")])]
    [("transactionId", VStr "txn_1")] "txn_1" DemoHook.paid DemoHook.st_paid
    (demo_verified _) eq_refl eq_refl eq_refl eq_refl)
    as (Hreply & Hrec & _).
  split; [exact Hreply|exact Hrec].
Defined.

(** X10.  After a verified event with a final status (success or failed)
    has been filed, a status request for its id is answered 200 from the
    store, with that status, without any call to the provider and without
    a change of state. *)
Theorem webhook_then_status (W : world) (raw_payload : list Byte.byte)
    (signature_header : option string) (data : value)
    (ed : list (string * value)) (key s : string) (st : state) :
  verified W raw_payload signature_header data →
  reads_as data ed key s →
  s ≠ "pending" →
  (payment_store st !! key = None →
   ∃ p, Py.field ed "phone" (VStr "") = VStr p) →
  ∃ rec,
    payment_store (webhook W raw_payload signature_header st).2 !! key =
      Some rec ∧
    status rec = s ∧
    check_status W key (webhook W raw_payload signature_header st).2 =
      (Ok (reply_of rec), (webhook W raw_payload signature_header st).2).
Proof.
  intros Hv Hev Hs Hp.
  rewrite (webhook_verified W _ _ data) by done.
  destruct (payment_store st !! key) as [r|] eqn:Hr.
  - rewrite (webhook_apply_known st data ed key s r) by done.
    exists (set_status s r). simpl. rewrite lookup_insert_eq.
    repeat split.
    rewrite (check_status_known W key (set_status s r)).
    + by apply poll_pending_terminal.
    + simpl. by rewrite lookup_insert_eq.
  - destruct (Hp eq_refl) as [p Hphone].
    rewrite (webhook_apply_new st data ed key s p) by done.
    eexists. simpl. rewrite lookup_insert_eq. repeat split.
    erewrite check_status_known.
    + by apply poll_pending_terminal.
    + simpl. by rewrite lookup_insert_eq.
Qed.

Lemma webhook_then_status_witness :
  ∃ rec,
    payment_store
      (webhook (DemoHook.world_reading DemoHook.success_event)
         DemoHook.payload (Some DemoHook.signature) Demo.st0).2 !! "txn_1" =
      Some rec ∧
    status rec = "success" ∧
    check_status (DemoHook.world_reading DemoHook.success_event) "txn_1"
      (webhook (DemoHook.world_reading DemoHook.success_event)
         DemoHook.payload (Some DemoHook.signature) Demo.st0).2 =
    (Ok (reply_of rec),
     (webhook (DemoHook.world_reading DemoHook.success_event)
        DemoHook.payload (Some DemoHook.signature) Demo.st0).2).
Proof.
  apply (webhook_then_status _ _ _ DemoHook.success_event
    [("transactionId", VStr "txn_1"); ("amount", VInt 50);
     ("status", VStr "success"); ("phone", VStr "+254712345678")]
    "txn_1" "success" Demo.st0 (demo_verified _)).
  - eexists. repeat split.
  - discriminate.
  - intros _. by eexists.
Defined.

(** ** Status polling: further properties *)

Section PollingMore.

Context (W : world) (tid : string).

Lemma check_status_unknown_raise (st st1 : state) e :
  payment_store st !! tid = None →
  fetch_lipana_status W tid st = (Raise e, st1) →
  check_status W tid st = (Raise e, st1).
Proof.
  intros Hr Hf. unfold check_status. rewrite bind_run.
  unfold store_get. rewrite Hr, bind_run. by rewrite Hf.
Qed.

(** The state after one run of [fetch_lipana_status]. *)
Lemma fetch_lipana_status_after (st : state) :
  ∃ n : nat, (n ≤ 3)%nat ∧
    ∃ res, fetch_lipana_status W tid st = (res, after_pages st 1 n) ∧
           ∀ s, res = Ok (Some s) → valid_status s.
Proof.
  destruct (fetch_lipana_status_frame W tid st) as (n & Hn & Hst & _ & Hs).
  exists n. split; [done|].
  destruct (fetch_lipana_status W tid st) as [res st1]. simpl in *.
  exists res. subst. split; [done|].
  intros s ->. specialize (Hs s eq_refl). unfold valid_status.
  rewrite !elem_of_cons, elem_of_nil in Hs. tauto.
Qed.

(** Every run of a status request: up to two runs of the fetcher, and at
    most one record written, under the requested id. *)
Lemma check_status_run (st : state) :
  ∃ (n m : nat) (upd : option record),
    (n ≤ 3)%nat ∧ (m ≤ 3)%nat ∧
    (check_status W tid st).2 =
      {| payment_store :=
           match upd with
           | Some rec => <[tid := rec]> (payment_store st)
           | None => payment_store st
           end;
         outbound := (outbound st ++ pages_from 1 n) ++ pages_from 1 m |} ∧
    (∀ r, (check_status W tid st).1 = Ok r →
       match upd with
       | Some rec => r = reply_of rec
       | None =>
           (∃ rec, payment_store st !! tid = Some rec ∧ r = reply_of rec) ∨
           (payment_store st !! tid = None ∧
            r = jsonify [("status", VStr "not_found")] 404)
       end) ∧
    (∀ rec, upd = Some rec → valid_status (status rec)).
Proof.
  destruct (payment_store st !! tid) as [r0|] eqn:Hr.
  - rewrite (check_status_known W tid r0) by done.
    destruct (decide (status r0 = "pending")) as [Hs|Hs].
    2:{ rewrite poll_pending_terminal by done.
        exists O, O, None. unfold after_pages; simpl; rewrite !app_nil_r.
        destruct st as [store out]; simpl in *.
        split; [lia|]. split; [lia|]. split; [done|]. split; [|done].
        intros r [= <-]. left. by exists r0. }
    destruct (fetch_lipana_status_after st)
      as (n & Hn & [live|e] & Hf & Hvalid).
    + rewrite (poll_pending_refresh W tid r0 _ _ live Hs Hf).
      destruct live as [s|]; simpl.
      * destruct (String.eqb s "pending") eqn:Hsp.
        -- exists n, O, None. unfold after_pages, with_record; simpl; rewrite ?app_nil_r.
           split; [lia|]. split; [lia|]. split; [done|]. split; [|done].
           intros r [= <-]. left. by exists r0.
        -- exists n, O, (Some (set_status s r0)). unfold after_pages, with_record; simpl; rewrite ?app_nil_r.
           split; [lia|]. split; [lia|]. split; [done|]. split.
           ++ by intros r [= <-].
           ++ intros rec [= <-]. simpl. by apply Hvalid.
      * exists n, O, None. unfold after_pages, with_record; simpl; rewrite ?app_nil_r.
        split; [lia|]. split; [lia|]. split; [done|]. split; [|done].
        intros r [= <-]. left. by exists r0.
    + rewrite (poll_pending_raise W tid r0 _ _ e Hs Hf).
      exists n, O, None. unfold after_pages, with_record; simpl; rewrite ?app_nil_r.
      split; [lia|]. split; [lia|]. split; [done|]. by split.
  - destruct (fetch_lipana_status_after st)
      as (n & Hn & [[s|]|e] & Hf & Hvalid).
    + rewrite (check_status_unknown_some W tid _ _ s Hr Hf).
      set (rec := {| status := s; phone := "Recovered"; amount := VInt 0 |}).
      destruct (decide (s = "pending")) as [Hs|Hs].
      2:{ rewrite poll_pending_terminal by done.
          exists n, O, (Some rec). unfold after_pages, with_record; simpl; rewrite ?app_nil_r.
          split; [lia|]. split; [lia|]. split; [done|]. split.
          - by intros r [= <-].
          - intros ? [= <-]. by apply Hvalid. }
      destruct (fetch_lipana_status_after
                  (with_record (after_pages st 1 n) tid rec))
        as (m & Hm & [live|e] & Hf2 & Hvalid2).
      * rewrite (poll_pending_refresh W tid rec _ _ live Hs Hf2).
        exists n, m, (Some (refresh rec live)).
        split; [lia|]. split; [lia|]. split; [|split].
        -- destruct live as [s'|]; simpl; [|done].
           destruct (String.eqb s' "pending"); simpl; [done|].
           unfold with_record. simpl. by rewrite insert_insert_eq.
        -- by intros r [= <-].
        -- intros ? [= <-]. destruct live as [s'|]; simpl.
           ++ destruct (String.eqb s' "pending"); simpl; auto.
           ++ auto.
      * rewrite (poll_pending_raise W tid rec _ _ e Hs Hf2).
        exists n, m, (Some rec).
        split; [lia|]. split; [lia|]. split; [done|]. split; [done|].
        intros ? [= <-]. by apply Hvalid.
    + rewrite (check_status_unknown_none W tid _ _ Hr Hf).
      exists n, O, None. unfold after_pages, with_record; simpl; rewrite ?app_nil_r.
      split; [lia|]. split; [lia|]. split; [done|]. split; [|done].
      intros r [= <-]. by right.
    + rewrite (check_status_unknown_raise _ _ e Hr Hf).
      exists n, O, None. unfold after_pages, with_record; simpl; rewrite ?app_nil_r.
      split; [lia|]. split; [lia|]. split; [done|]. by split.
Qed.

End PollingMore.

(** X11.  A status request that is answered is answered from the store as
    the request leaves it: a 200 carries the status, phone and amount of
    the record now stored under the id; the only other reply is the 404
    {status: not_found}, given when the id was not stored, and then the
    store is as before. *)
Theorem check_status_reply_matches_store (W : world) (tid : string)
    (st : state) (r : reply) :
  (check_status W tid st).1 = Ok r →
  (∃ rec, payment_store (check_status W tid st).2 !! tid = Some rec ∧
          r = reply_of rec) ∨
  (r = jsonify [("status", VStr "not_found")] 404 ∧
   payment_store st !! tid = None ∧
   payment_store (check_status W tid st).2 = payment_store st).
Proof.
  intros Hr.
  destruct (check_status_run W tid st) as (n & m & upd & _ & _ & -> & Hrep & _).
  specialize (Hrep r Hr). simpl. destruct upd as [rec|].
  - left. exists rec. by rewrite lookup_insert_eq.
  - destruct Hrep as [(rec & Hrec & ->)|[Hnone ->]].
    + left. by exists rec.
    + by right.
Qed.

Lemma check_status_reply_matches_store_witness :
  (∃ rec,
     payment_store
       (check_status (Demo.world_of Demo.no_json Demo.two_pages) "txn_a"
          Demo.st0).2 !! "txn_a" = Some rec ∧
     jsonify [("status", VStr "success"); ("phone", VStr "Recovered");
              ("amount", VInt 0)] 200 = reply_of rec) ∨
  (jsonify [("status", VStr "success"); ("phone", VStr "Recovered");
            ("amount", VInt 0)] 200 =
     jsonify [("status", VStr "not_found")] 404 ∧
   payment_store Demo.st0 !! "txn_a" = None ∧
   payment_store
     (check_status (Demo.world_of Demo.no_json Demo.two_pages) "txn_a"
        Demo.st0).2 = payment_store Demo.st0).
Proof.
  apply (check_status_reply_matches_store
    (Demo.world_of Demo.no_json Demo.two_pages) "txn_a" Demo.st0).
  vm_compute. reflexivity.
Defined.

(** X12.  A status request touches nothing but the record of the
    requested id, never removes it, and calls the provider only for pages
    of the transaction list: at most two scans of at most three pages,
    each from page 1 on. *)
Theorem check_status_frame (W : world) (tid : string) (st : state) :
  (∀ k, k ≠ tid →
     payment_store (check_status W tid st).2 !! k = payment_store st !! k) ∧
  (is_Some (payment_store st !! tid) →
   is_Some (payment_store (check_status W tid st).2 !! tid)) ∧
  ∃ n m : nat,
    (n ≤ 3)%nat ∧ (m ≤ 3)%nat ∧
    outbound (check_status W tid st).2 =
      ((outbound st ++ pages_from 1 n) ++ pages_from 1 m)%list.
Proof.
  destruct (check_status_run W tid st) as (n & m & upd & Hn & Hm & -> & _).
  simpl. split; [|split].
  - intros k Hk. destruct upd; [by rewrite lookup_insert_ne|done].
  - intros Hsome. destruct upd; [by rewrite lookup_insert_eq|done].
  - by exists n, m.
Qed.

(** X13.  The fetcher absorbs only the failures of the request itself: when
    the id is not stored, or is stored as pending, and the first page the
    provider returns is JSON but not an object, the status request fails
    with the [AttributeError] of [body.get]; one page has been asked for and
    the store is unchanged. *)
Theorem check_status_fails_on_non_object_page (W : world) (tid : string)
    (st : state) (c : Z) (body : value) :
  (payment_store st !! tid = None ∨
   ∃ r, payment_store st !! tid = Some r ∧ status r = "pending") →
  resp_at W st 0 1 = RespHttp c (Some body) →
  ok c = true →
  (∀ d, body ≠ VDict d) →
  check_status W tid st = (Raise AttributeError, after_pages st 1 1).
Proof.
  intros Hrec Hresp Hc Hbody.
  assert (fetch_lipana_status W tid st =
          (Raise AttributeError, after_pages st 1 1)) as Hf.
  { rewrite fetch_lipana_status_from, fetch_from_step by done.
    rewrite Hresp. simpl page_flow. unfold scan_page. rewrite Hc. simpl.
    destruct body; try done. by destruct (Hbody d). }
  destruct Hrec as [Hnone|(r & Hr & Hs)].
  - by apply check_status_unknown_raise.
  - rewrite (check_status_known W tid r) by done.
    by apply poll_pending_raise.
Qed.

Lemma check_status_fails_on_non_object_page_witness :
  check_status
    (Demo.world_of Demo.no_json (λ _ _, RespHttp 200 (Some (VList []))))
    "txn_a" Demo.st0 =
  (Raise AttributeError, after_pages Demo.st0 1 1).
Proof.
  apply (check_status_fails_on_non_object_page
    (Demo.world_of Demo.no_json (λ _ _, RespHttp 200 (Some (VList []))))
    "txn_a" Demo.st0 200 (VList [])).
  - left. reflexivity.
  - reflexivity.
  - reflexivity.
  - discriminate.
Defined.

(** ** The store under the three handlers *)

Lemma webhook_state (W : world) (raw_payload : list Byte.byte)
    (signature_header : option string) (st : state) :
  (webhook W raw_payload signature_header st).2 = st ∨
  ∃ key rec,
    (webhook W raw_payload signature_header st).2 = with_record st key rec ∧
    valid_status (status rec).
Proof.
  destruct (webhook_unverified W raw_payload signature_header st)
    as [[data Hv]|(res & -> & _)]; [|by left].
  rewrite (webhook_verified W _ _ data) by done.
  destruct (webhook_apply_cases data st)
    as [[e ->]|(ed & key & s & Hev & [[r Hr]|[Hr [p Hp]]])]; [by left| |].
  - rewrite (webhook_apply_known st data ed key s r) by done.
    right. eexists _, _. split; [done|]. simpl.
    destruct Hev as (d & _ & _ & _ & Hs). by eapply map_lipana_status_valid.
  - rewrite (webhook_apply_new st data ed key s p) by done.
    right. eexists _, _. split; [done|]. simpl.
    destruct Hev as (d & _ & _ & _ & Hs). by eapply map_lipana_status_valid.
Qed.

Lemma initiate_payment_state (W : world) (json : value) (st : state) :
  payment_store (initiate_payment W json st).2 = payment_store st ∨
  ∃ key rec,
    payment_store (initiate_payment W json st).2 =
      <[key := rec]> (payment_store st) ∧
    status rec = "pending".
Proof.
  destruct (initiate_payment_cases W json st)
    as [(res & -> & _)|(phone & n & Hvalid)]; [by left|].
  rewrite (initiate_payment_valid W json phone n) by done.
  destruct (push_stk_cases W (normalise_phone phone) n st)
    as [[key ->]|(res & -> & _)]; [|by left].
  right. by eexists _, _.
Qed.

Lemma statuses_valid_insert (store : gmap string record) (k : string)
    (r : record) :
  statuses_valid store → valid_status (status r) →
  statuses_valid (<[k := r]> store).
Proof.
  intros Hstore Hr k' r'. rewrite lookup_insert.
  case_decide; [by intros [= <-]|apply Hstore].
Qed.

(** X14.  The status of every stored record is pending, success or
    failed, and stays so under each of the three handlers, whatever the
    request and whatever the provider answers. *)
Theorem handlers_keep_statuses (W : world) (st : state) :
  statuses_valid (payment_store st) →
  (∀ raw_payload signature_header,
     statuses_valid
       (payment_store (webhook W raw_payload signature_header st).2)) ∧
  (∀ tid, statuses_valid (payment_store (check_status W tid st).2)) ∧
  (∀ json, statuses_valid (payment_store (initiate_payment W json st).2)).
Proof.
  intros Hst. split; [|split].
  - intros raw_payload header.
    destruct (webhook_state W raw_payload header st)
      as [->|(key & rec & -> & Hs)]; [done|].
    by apply statuses_valid_insert.
  - intros tid.
    destruct (check_status_run W tid st)
      as (n & m & upd & _ & _ & -> & _ & Hupd).
    simpl. destruct upd as [rec|]; [|done].
    apply statuses_valid_insert; [done|]. by apply Hupd.
  - intros json.
    destruct (initiate_payment_state W json st)
      as [->|(key & rec & -> & Hs)]; [done|].
    apply statuses_valid_insert; [done|]. left. done.
Qed.

Lemma handlers_keep_statuses_witness :
  statuses_valid
    (payment_store
       (webhook (DemoHook.world_reading DemoHook.pending_event)
          DemoHook.payload (Some DemoHook.signature) DemoHook.st_paid).2).
Proof.
  refine (proj1 (handlers_keep_statuses
    (DemoHook.world_reading DemoHook.pending_event) DemoHook.st_paid _)
    DemoHook.payload (Some DemoHook.signature)).
  intros k r. unfold DemoHook.st_paid. simpl.
  rewrite lookup_singleton. case_decide; [|done].
  intros [= <-]. right. left. reflexivity.
Defined.

(** X15.  No handler removes a record: every id stored before a request
    is stored after it. *)
Theorem handlers_never_delete (W : world) (st : state) :
  (∀ raw_payload signature_header,
     dom (payment_store st) ⊆
     dom (payment_store (webhook W raw_payload signature_header st).2)) ∧
  (∀ tid,
     dom (payment_store st) ⊆ dom (payment_store (check_status W tid st).2)) ∧
  (∀ json,
     dom (payment_store st) ⊆
     dom (payment_store (initiate_payment W json st).2)).
Proof.
  split; [|split].
  - intros raw_payload header.
    destruct (webhook_state W raw_payload header st)
      as [->|(key & rec & -> & _)]; [done|].
    simpl. rewrite dom_insert_L. set_solver.
  - intros tid.
    destruct (check_status_run W tid st) as (n & m & upd & _ & _ & -> & _).
    simpl. destruct upd; [|done]. rewrite dom_insert_L. set_solver.
  - intros json.
    destruct (initiate_payment_state W json st)
      as [->|(key & rec & -> & _)]; [done|].
    rewrite dom_insert_L. set_solver.
Qed.

(** ** A whole payment *)

(** X16.  Initiation, webhook and poll compose: when a POST /pay was
    answered 200 with the id [t], and a verified event for [t] with a final
    status arrives, the next status request for [t] is answered 200 with
    that status, the normalised phone and the converted amount of the
    initiation; the one call made to the provider in all of this is the
    push. *)
Theorem pay_webhook_status (W : world) (json : value) (phone : string)
    (n : Z) (t : string) (st st1 : state) (raw_payload : list Byte.byte)
    (signature_header : option string) (data : value)
    (ed : list (string * value)) (s : string) :
  valid_pay W json phone n →
  initiate_payment W json st =
    (Ok (jsonify [("trackingId", VStr t)] 200), st1) →
  verified W raw_payload signature_header data →
  reads_as data ed t s →
  s ≠ "pending" →
  let st2 := (webhook W raw_payload signature_header st1).2 in
  check_status W t st2 =
    (Ok (jsonify [("status", VStr s);
                  ("phone", VStr (normalise_phone phone));
                  ("amount", VInt n)] 200), st2) ∧
  outbound st2 =
    (outbound st ++ [PushStk ("+" +:+ normalise_phone phone) n])%list.
Proof.
  intros Hvalid Hpay Hv Hev Hs st2.
  rewrite (initiate_payment_valid W json phone n) in Hpay by done.
  assert (st1 = with_record
            (logged st (PushStk ("+" +:+ normalise_phone phone) n)) t
            (pending_record (normalise_phone phone) n)) as Hst1.
  { destruct (push_stk_cases W (normalise_phone phone) n st)
      as [[key Hrun]|(res & Hrun & Hres)]; rewrite Hrun in Hpay.
    - by injection Hpay as <- <-.
    - injection Hpay as -> <-.
      destruct (Hres _ eq_refl) as [[Hc _]|[Hc _]]; discriminate Hc. }
  assert (st2 = with_record st1 t
            (set_status s (pending_record (normalise_phone phone) n)))
    as Hst2.
  { unfold st2. rewrite (webhook_verified W _ _ data) by done.
    rewrite (webhook_apply_known st1 data ed t s
               (pending_record (normalise_phone phone) n)); [done|done|].
    rewrite Hst1. simpl. by rewrite lookup_insert_eq. }
  split.
  - rewrite (check_status_known W t
               (set_status s (pending_record (normalise_phone phone) n))).
    + by rewrite poll_pending_terminal.
    + rewrite Hst2. simpl. by rewrite lookup_insert_eq.
  - by rewrite Hst2, Hst1.
Qed.

Lemma pay_webhook_status_witness :
  check_status DemoPay.world_paying "txn_9"
    (webhook DemoPay.world_paying DemoHook.payload (Some DemoHook.signature)
       (initiate_payment DemoPay.world_paying DemoPay.body Demo.st0).2).2 =
  (Ok (jsonify [("status", VStr "success"); ("phone", VStr "254712345678");
                ("amount", VInt 50)] 200),
   (webhook DemoPay.world_paying DemoHook.payload (Some DemoHook.signature)
      (initiate_payment DemoPay.world_paying DemoPay.body Demo.st0).2).2).
Proof.
  refine (proj1 (pay_webhook_status DemoPay.world_paying DemoPay.body
    "0712345678" 50 "txn_9" Demo.st0
    (initiate_payment DemoPay.world_paying DemoPay.body Demo.st0).2
    DemoHook.payload (Some DemoHook.signature) DemoPay.paid_event
    [("transactionId", VStr "txn_9"); ("status", VStr "success");
     ("phone", VStr "+254712345678")] "success"
    (demo_valid_pay _ _) _ _ _ _)).
  - vm_compute. reflexivity.
  - exists DemoHook.signature. repeat split. discriminate.
  - eexists. repeat split.
  - discriminate.
Defined.

(** ** Remote status fetcher: further properties *)

(** X17.  A page that wraps its records in an object under "data" is
    scanned as the page that carries the records under "data" directly. *)
Theorem scan_page_nested_data (tid : string) (page c : Z)
    (d inner : list (string * value)) (l : list value) :
  Py.field d "data" (VList []) = VDict inner →
  Py.field inner "data" (VList []) = VList l →
  scan_page tid page c (Some (VDict d)) =
  scan_page tid page c (Some (VDict (("data", VList l) :: d))).
Proof.
  intros Hd Hinner.
  destruct (ok c) eqn:Hc.
  2:{ unfold scan_page. by rewrite Hc. }
  rewrite !scan_page_ok by done.
  assert (items_of d = VList l) as ->.
  { unfold items_of. by rewrite Hd. }
  assert (items_of (("data", VList l) :: d) = VList l) as -> by reflexivity.
  destruct l as [|x l]; [done|].
  unfold scan_records.
  by destruct (scan_items tid (x :: l)) as [[raw|]|e].
Qed.

Lemma scan_page_nested_data_witness :
  scan_page "txn_a" 1 200
    (Some (VDict [("data", VDict [("data", VList [Demo.tx "txn_a" "failed"])])]))
  =
  scan_page "txn_a" 1 200
    (Some (VDict [("data", VList [Demo.tx "txn_a" "failed"]);
                  ("data", VDict [("data", VList [Demo.tx "txn_a" "failed"])])])).
Proof.
  apply (scan_page_nested_data "txn_a" 1 200
    [("data", VDict [("data", VList [Demo.tx "txn_a" "failed"])])]
    [("data", VList [Demo.tx "txn_a" "failed"])]
    [Demo.tx "txn_a" "failed"] eq_refl eq_refl).
Defined.

(** X18.  A page without pagination data counts as the only page: when
    the first page holds records of other transactions only and carries no
    "pagination" object, or one without "pages", the fetcher returns
    nothing after this one page. *)
Theorem fetch_lipana_status_no_pagination (W : world) (tid : string)
    (st : state) (c : Z) (d pg : list (string * value)) (x : value)
    (l : list value) :
  resp_at W st 0 1 = RespHttp c (Some (VDict d)) →
  ok c = true →
  items_of d = VList (x :: l) →
  Forall (other_record tid) (x :: l) →
  Py.field d "pagination" (VDict []) = VDict pg →
  Py.assoc "pages" pg = None →
  fetch_lipana_status W tid st = (Ok None, after_pages st 1 1).
Proof.
  intros Hresp Hc Hitems Hother Hpg Hpages.
  rewrite fetch_lipana_status_from.
  apply (fetch_from_run W tid 0 4 1 st LastPage); [lia|lia| | |done].
  - intros j Hj. lia.
  - change (1 + Z.of_nat 0) with 1. rewrite Hresp.
    apply (is_last_page tid 1 c d x l (VInt 1)); try done.
    exists pg. split; [done|]. unfold Py.field. by rewrite Hpages.
Qed.

Lemma fetch_lipana_status_no_pagination_witness :
  fetch_lipana_status
    (Demo.world_of Demo.no_json
       (λ _ _, RespHttp 200
                 (Some (VDict [("data", VList [Demo.tx "txn_a" "failed"])]))))
    "txn_b" Demo.st0 =
  (Ok None, after_pages Demo.st0 1 1).
Proof.
  apply (fetch_lipana_status_no_pagination
    (Demo.world_of Demo.no_json
       (λ _ _, RespHttp 200
                 (Some (VDict [("data", VList [Demo.tx "txn_a" "failed"])]))))
    "txn_b" Demo.st0 200
    [("data", VList [Demo.tx "txn_a" "failed"])] []
    (Demo.tx "txn_a" "failed") []); try reflexivity.
  repeat constructor. eexists. split; reflexivity.
Defined.

(** ** Further compositions *)



(** Both fields present and different: the record that transaction_id
    names is untouched, the event goes to the one transactionId names. *)
Example webhook_id_primary_wins :
  payment_store
    (webhook (DemoHook.world_reading
                (DemoHook.event [("transactionId", VStr "txn_2");
                                 ("transaction_id", VStr "txn_1");
                                 ("status", VStr "failed");
                                 ("phone", VStr "+254700000001")]))
       DemoHook.payload (Some DemoHook.signature) DemoHook.st_paid).2 =
  {[ "txn_1" := DemoHook.paid;
     "txn_2" := {| status := "failed"; phone := "254700000001";
                   amount := VNone |} ]}.
Proof. vm_compute. reflexivity. Qed.

Lemma reply_of_inj (r1 r2 : record) : reply_of r1 = reply_of r2 → r1 = r2.
Proof.
  destruct r1, r2. unfold reply_of, jsonify. simpl. by intros [= -> -> ->].
Qed.

(** X20.  Once a status request has answered success or failed, every
    later status request for the id gives the same answer from the store,
    without a call to the provider and without a change of state, whatever
    the provider would answer by then. *)
Theorem check_status_stable_once_final (W W' : world) (tid : string)
    (st : state) (rec : record) :
  (check_status W tid st).1 = Ok (reply_of rec) →
  status rec ≠ "pending" →
  check_status W' tid (check_status W tid st).2 =
  (Ok (reply_of rec), (check_status W tid st).2).
Proof.
  intros Hr Hs.
  assert (payment_store (check_status W tid st).2 !! tid = Some rec) as Hrec.
  { destruct (check_status_run W tid st)
      as (n & m & upd & _ & _ & -> & Hrep & _).
    specialize (Hrep _ Hr). simpl. destruct upd as [rec'|].
    - apply reply_of_inj in Hrep as <-. by rewrite lookup_insert_eq.
    - destruct Hrep as [(rec' & Hrec' & <-%reply_of_inj)|[_ Hnf]]; [done|].
      discriminate Hnf. }
  rewrite (check_status_known W' tid rec) by done.
  by apply poll_pending_terminal.
Qed.

Lemma check_status_stable_once_final_witness :
  check_status (Demo.world_of Demo.no_json (λ _ _, RespTimeout)) "txn_a"
    (check_status (Demo.world_of Demo.no_json Demo.two_pages) "txn_a"
       Demo.st0).2 =
  (Ok (reply_of {| status := "success"; phone := "Recovered";
                   amount := VInt 0 |}),
   (check_status (Demo.world_of Demo.no_json Demo.two_pages) "txn_a"
      Demo.st0).2).
Proof.
  apply (check_status_stable_once_final
    (Demo.world_of Demo.no_json Demo.two_pages)
    (Demo.world_of Demo.no_json (λ _ _, RespTimeout)) "txn_a" Demo.st0).
  - vm_compute. reflexivity.
  - discriminate.
Defined.
